(** * Schedule resolution of the Gantt chart generator

    A shallow embedding of [calculate_schedule] from
    [gantt-chart/generate-gantt_chart.py], together with the parts of the
    Python runtime it calls ([float], [timedelta], [datetime] arithmetic and
    [datetime.strptime] for the format "%Y-%m-%d"), and the properties of the
    resolved schedule.

    The configuration is what [yaml.safe_load] returns; a task is a Python
    dict, modelled as a finite map from keys to values.  Python floats are
    IEEE 754 binary64 numbers, modelled by [spec_float] with a 53 bit
    mantissa; dates and durations count microseconds, the resolution of
    [datetime] and [timedelta]. *)

From Stdlib Require Import ZArith Lia List String Ascii Bool.
From Stdlib Require Import Floats.SpecFloat.
From stdpp Require Import gmap strings.

Local Open Scope Z_scope.

(** ** The Python runtime *)

Module Python.

(** Values found in a loaded YAML document: null, booleans, integers, floats,
    strings, dates written without quotes ([datetime.date]), sequences and
    mappings. *)
#[warnings="-register-all"]
Inductive value : Type :=
| VNone
| VBool (b : bool)
| VInt (n : Z)
| VFloat (x : spec_float)
| VStr (s : string)
| VDate (year month day : Z)
| VList (items : list value)
| VDict (items : list (value * value)).

(** Exceptions the scheduling code can meet. *)
Inductive exception : Type :=
| KeyError
| TypeError
| ValueError
| OverflowError.

(** Lines written by [print]; the f-strings are kept as their fields. *)
Inductive line : Type :=
| WarnDuration (total_duration_days : Z)
| WarnCrowded
| ErrInvalidDuration (duration_val name : value).

(** How a computation ends: with a value, with an exception that nobody
    caught, or with [sys.exit code]. *)
Inductive outcome (A : Type) : Type :=
| Return (a : A)
| Raise (e : exception)
| SysExit (code : Z).

Arguments Return {A} a.
Arguments Raise {A} e.
Arguments SysExit {A} code.

(** A computation: the lines printed so far and the outcome. *)
Definition M (A : Type) : Type := (list line * outcome A)%type.

Definition ret {A} (a : A) : M A := ([], Return a).

Definition bind {A B} (m : M A) (k : A -> M B) : M B :=
  match m with
  | (out, Return a) => let '(out', r) := k a in (out ++ out', r)
  | (out, Raise e) => (out, Raise e)
  | (out, SysExit c) => (out, SysExit c)
  end.

Definition raise {A} (e : exception) : M A := ([], Raise e).
Definition print (l : line) : M unit := ([l], Return tt).
Definition sys_exit {A} (code : Z) : M A := ([], SysExit code).

Definition exception_eqb (a b : exception) : bool :=
  match a, b with
  | KeyError, KeyError | TypeError, TypeError
  | ValueError, ValueError | OverflowError, OverflowError => true
  | _, _ => false
  end.

(** [try: m  except exc: handler] *)
Definition try_except {A} (m : M A) (exc : exception) (handler : M A) : M A :=
  match m with
  | (out, Raise e) =>
      if exception_eqb e exc then let '(out', r) := handler in (out ++ out', r)
      else (out, Raise e)
  | other => other
  end.

#[global] Instance M_ret : MRet M := @ret.
#[global] Instance M_bind : MBind M := fun A B k m => bind m k.

(** *** Truth value and comparison with a string *)

(** [bool(v)], as used by [if v:]. *)
Definition truthy (v : value) : bool :=
  match v with
  | VNone => false
  | VBool b => b
  | VInt n => negb (n =? 0)
  | VFloat (S754_zero _) => false
  | VFloat _ => true
  | VStr s => negb (String.eqb s "")
  | VDate _ _ _ => true
  | VList items => match items with [] => false | _ => true end
  | VDict items => match items with [] => false | _ => true end
  end.

(** [v == s] for a string literal [s]: only an equal string compares equal. *)
Definition eq_str (v : value) (s : string) : bool :=
  match v with
  | VStr s' => String.eqb s' s
  | _ => false
  end.

(** [d[key]] and [d.get(key)] on a dict with string keys. *)
Definition getitem (d : gmap string value) (key : string) : M value :=
  match d !! key with
  | Some v => ret v
  | None => raise KeyError
  end.

Definition get (d : gmap string value) (key : string) : value :=
  match d !! key with
  | Some v => v
  | None => VNone
  end.

(** *** Calendar arithmetic of [datetime] *)

Definition _is_leap (year : Z) : bool :=
  (year mod 4 =? 0) && (negb (year mod 100 =? 0) || (year mod 400 =? 0)).

Definition _days_before_year (year : Z) : Z :=
  let y := year - 1 in
  y * 365 + y / 4 - y / 100 + y / 400.

Definition _DAYS_IN_MONTH (month : Z) : Z :=
  match month with
  | 1 => 31 | 2 => 28 | 3 => 31 | 4 => 30 | 5 => 31 | 6 => 30
  | 7 => 31 | 8 => 31 | 9 => 30 | 10 => 31 | 11 => 30 | 12 => 31
  | _ => -1
  end.

Definition _DAYS_BEFORE_MONTH (month : Z) : Z :=
  match month with
  | 1 => 0 | 2 => 31 | 3 => 59 | 4 => 90 | 5 => 120 | 6 => 151
  | 7 => 181 | 8 => 212 | 9 => 243 | 10 => 273 | 11 => 304 | 12 => 334
  | _ => -1
  end.

Definition _days_in_month (year month : Z) : Z :=
  if (month =? 2) && _is_leap year then 29 else _DAYS_IN_MONTH month.

Definition _days_before_month (year month : Z) : Z :=
  _DAYS_BEFORE_MONTH month + (if (2 <? month) && _is_leap year then 1 else 0).

Definition _ymd2ord (year month day : Z) : Z :=
  _days_before_year year + _days_before_month year month + day.

Definition _DI400Y : Z := _days_before_year 401.
Definition _DI100Y : Z := _days_before_year 101.
Definition _DI4Y : Z := _days_before_year 5.

Definition _ord2ymd (n : Z) : Z * Z * Z :=
  let n := n - 1 in
  let n400 := n / _DI400Y in
  let n := n mod _DI400Y in
  let year := n400 * 400 + 1 in
  let n100 := n / _DI100Y in
  let n := n mod _DI100Y in
  let n4 := n / _DI4Y in
  let n := n mod _DI4Y in
  let n1 := n / 365 in
  let n := n mod 365 in
  let year := year + (n100 * 100 + n4 * 4 + n1) in
  if (n1 =? 4) || (n100 =? 4) then (year - 1, 12, 31)
  else
    let leapyear := (n1 =? 3) && (negb (n4 =? 24) || (n100 =? 3)) in
    let month := Z.shiftr (n + 50) 5 in
    let preceding :=
      _DAYS_BEFORE_MONTH month + (if (2 <? month) && leapyear then 1 else 0) in
    if n <? preceding then
      let month := month - 1 in
      let preceding :=
        preceding
        - (_DAYS_IN_MONTH month + (if (month =? 2) && leapyear then 1 else 0)) in
      (year, month, n - preceding + 1)
    else (year, month, n - preceding + 1).

Definition MINYEAR : Z := 1.
Definition MAXYEAR : Z := 9999.
Definition _MAXORDINAL : Z := 3652059.

Definition us_per_day : Z := 86400000000.
Definition us_per_week : Z := 604800000000.

(** A naive [datetime]: the microseconds since the start of ordinal day 0,
    so that day [n] of the proleptic Gregorian calendar begins at
    [n * us_per_day].  A [timedelta] is a signed count of microseconds. *)
Definition datetime : Type := Z.
Definition timedelta : Type := Z.

Definition toordinal (d : datetime) : Z := d / us_per_day.

(** [datetime(year, month, day)]: midnight of that day, [ValueError] when the
    fields are out of range. *)
Definition datetime_ymd (year month day : Z) : M datetime :=
  if (MINYEAR <=? year) && (year <=? MAXYEAR)
     && (1 <=? month) && (month <=? 12)
     && (1 <=? day) && (day <=? _days_in_month year month)
  then ret (_ymd2ord year month day * us_per_day)
  else raise ValueError.

(** The calendar date of a [datetime] and its time of day in microseconds. *)
Definition date_of (d : datetime) : Z * Z * Z := _ord2ymd (toordinal d).
Definition time_of (d : datetime) : Z := d mod us_per_day.

(** [timedelta.days]: the normalised day field rounds towards minus
    infinity. *)
Definition days (t : timedelta) : Z := t / us_per_day.

(** [d + t]: [OverflowError] when the result leaves years 1..9999. *)
Definition datetime_add (d : datetime) (t : timedelta) : M datetime :=
  let r := d + t in
  if (0 <? toordinal r) && (toordinal r <=? _MAXORDINAL) then ret r
  else raise OverflowError.

(** [a - b] for two datetimes. *)
Definition datetime_sub (a b : datetime) : timedelta := a - b.

(** *** Text

    A [str] is a sequence of Unicode code points.  It is modelled by the
    string of its UTF-8 bytes, which is what a string literal of this file
    is, and [code_points] reads the code points back.  A byte that belongs
    to no well-formed sequence, which no [str] gives, stands for the lone
    surrogate that the [surrogateescape] handler makes of it: no digit, no
    space. *)

Definition byte (c : ascii) : Z := Z.of_N (N_of_ascii c).
Definition ascii_of_code (ch : Z) : ascii := ascii_of_N (Z.to_N ch).

Definition continuation (c : ascii) : bool :=
  (128 <=? byte c) && (byte c <=? 191).

Definition two_bytes (b0 b1 : ascii) : bool :=
  (194 <=? byte b0) && (byte b0 <=? 223) && continuation b1.

Definition three_bytes (b0 b1 b2 : ascii) : bool :=
  (224 <=? byte b0) && (byte b0 <=? 239) && continuation b1 && continuation b2
  && (negb (byte b0 =? 224) || (160 <=? byte b1))
  && (negb (byte b0 =? 237) || (byte b1 <=? 159)).

Definition four_bytes (b0 b1 b2 b3 : ascii) : bool :=
  (240 <=? byte b0) && (byte b0 <=? 244)
  && continuation b1 && continuation b2 && continuation b3
  && (negb (byte b0 =? 240) || (144 <=? byte b1))
  && (negb (byte b0 =? 244) || (byte b1 <=? 143)).

Definition escaped (b : ascii) : Z := 56320 + byte b.

Fixpoint decode_utf8 (s : list ascii) : list Z :=
  match s with
  | [] => []
  | b0 :: s1 =>
      if byte b0 <? 128 then byte b0 :: decode_utf8 s1
      else
        match s1 with
        | [] => [escaped b0]
        | b1 :: s2 =>
            if two_bytes b0 b1
            then ((byte b0 - 192) * 64 + (byte b1 - 128)) :: decode_utf8 s2
            else
              match s2 with
              | [] => escaped b0 :: decode_utf8 s1
              | b2 :: s3 =>
                  if three_bytes b0 b1 b2
                  then ((byte b0 - 224) * 4096 + (byte b1 - 128) * 64
                        + (byte b2 - 128)) :: decode_utf8 s3
                  else
                    match s3 with
                    | [] => escaped b0 :: decode_utf8 s1
                    | b3 :: s4 =>
                        if four_bytes b0 b1 b2 b3
                        then ((byte b0 - 240) * 262144 + (byte b1 - 128) * 4096
                              + (byte b2 - 128) * 64 + (byte b3 - 128))
                             :: decode_utf8 s4
                        else escaped b0 :: decode_utf8 s1
                    end
              end
        end
  end.

Definition code_points (s : string) : list Z :=
  decode_utf8 (list_ascii_of_string s).

(** The UTF-8 bytes of a code point, and the [str] of a sequence of code
    points. *)
Definition encode_utf8 (ch : Z) : list ascii :=
  if ch <? 128 then [ascii_of_code ch]
  else if ch <? 2048 then
    [ascii_of_code (192 + ch / 64); ascii_of_code (128 + ch mod 64)]
  else if ch <? 65536 then
    [ascii_of_code (224 + ch / 4096); ascii_of_code (128 + ch / 64 mod 64);
     ascii_of_code (128 + ch mod 64)]
  else
    [ascii_of_code (240 + ch / 262144); ascii_of_code (128 + ch / 4096 mod 64);
     ascii_of_code (128 + ch / 64 mod 64); ascii_of_code (128 + ch mod 64)].

Definition str_of_code_points (l : list Z) : string :=
  string_of_list_ascii (flat_map encode_utf8 l).

(** The decimal digits of the Unicode Character Database 14.0, the one of
    CPython 3.11, come in runs of ten, from zero to nine; these are the
    zeros, from DIGIT ZERO and ARABIC-INDIC DIGIT ZERO to SEGMENTED DIGIT
    ZERO. *)
Definition DECIMAL_ZEROS : list Z :=
  [ 48; 1632; 1776; 1984; 2406; 2534; 2662; 2790; 2918; 3046; 3174; 3302;
    3430; 3558; 3664; 3792; 3872; 4160; 4240; 6112; 6160; 6470; 6608; 6784;
    6800; 6992; 7088; 7232; 7248; 42528; 43216; 43264; 43472; 43504; 43600;
    44016; 65296; 66720; 68912; 69734; 69872; 69942; 70096; 70384; 70736;
    70864; 71248; 71360; 71472; 71904; 72016; 72784; 73040; 73120; 92768;
    92864; 93008; 120782; 120792; 120802; 120812; 120822; 123200; 123632;
    125264; 130032 ].

(** [Py_UNICODE_TODECIMAL]: the value of a decimal digit. *)
Definition Py_UNICODE_TODECIMAL (ch : Z) : option Z :=
  match List.find (fun zero => (zero <=? ch) && (ch <=? zero + 9)) DECIMAL_ZEROS with
  | Some zero => Some (ch - zero)
  | None => None
  end.

(** [Py_UNICODE_ISSPACE]: the characters of bidirectional type WS, B or S
    and of category Zs. *)
Definition Py_UNICODE_ISSPACE (ch : Z) : bool :=
  (9 <=? ch) && (ch <=? 13) || (28 <=? ch) && (ch <=? 32)
  || (ch =? 133) || (ch =? 160) || (ch =? 5760)
  || (8192 <=? ch) && (ch <=? 8202)
  || (ch =? 8232) || (ch =? 8233) || (ch =? 8239) || (ch =? 8287)
  || (ch =? 12288).

(** [_PyUnicode_TransformDecimalAndSpaceToASCII], by which [float] and [int]
    read a [str]: an ASCII string is taken as it is; in another one every
    space becomes " " and every decimal digit its ASCII digit, and the
    first character above DEL that is neither becomes "?" and ends the
    result. *)
Fixpoint transform_decimal_and_space (s : list Z) : list ascii :=
  match s with
  | [] => []
  | ch :: rest =>
      if ch <? 127 then ascii_of_code ch :: transform_decimal_and_space rest
      else if Py_UNICODE_ISSPACE ch then " "%char :: transform_decimal_and_space rest
      else
        match Py_UNICODE_TODECIMAL ch with
        | Some decimal => ascii_of_code (48 + decimal) :: transform_decimal_and_space rest
        | None => ["?"%char]
        end
  end.

Definition _PyUnicode_TransformDecimalAndSpaceToASCII (s : list Z) : list ascii :=
  if forallb (fun ch => ch <? 128) s then List.map ascii_of_code s
  else transform_decimal_and_space s.

(** *** [datetime.strptime(s, "%Y-%m-%d")]

    [_strptime] compiles the format to the regular expression
    [(?P<Y>\d\d\d\d)-(?P<m>1[0-2]|0[1-9]|[1-9])-(?P<d>3[0-1]|[1-2]\d|0[1-9]|[1-9]| [1-9])],
    matches it at the start of the string, rejects unconverted trailing data
    and builds the date from the three groups with [int].  In a [str]
    pattern [\d] matches every Unicode decimal digit, and [int] reads such a
    digit by its value; the ranges and the single characters are ASCII. *)

(** ASCII digits and ranges, as the float literals have them. *)
Definition digit (c : ascii) : option Z :=
  let n := Z.of_N (N_of_ascii c) in
  if (48 <=? n) && (n <=? 57) then Some (n - 48) else None.

Definition is_digit (c : ascii) : bool :=
  match digit c with Some _ => true | None => false end.

Definition in_range (lo hi : ascii) (c : ascii) : bool :=
  (N_of_ascii lo <=? N_of_ascii c)%N && (N_of_ascii c <=? N_of_ascii hi)%N.

(** The classes of the expression: [\d], a range and a single character. *)
Definition is_decimal (ch : Z) : bool :=
  match Py_UNICODE_TODECIMAL ch with Some _ => true | None => false end.

Definition between (lo hi : ascii) (ch : Z) : bool :=
  (byte lo <=? ch) && (ch <=? byte hi).

Definition exactly (c : ascii) (ch : Z) : bool := ch =? byte c.

(** A piece of the expression: the number it reads and the rest of the
    input. *)
Definition matcher : Type := list Z -> option (Z * list Z).

(** One character of a class, read as a digit (a space counts for nothing,
    as in [int(" 5")]). *)
Definition one (cls : Z -> bool) : matcher := fun s =>
  match s with
  | ch :: rest =>
      if cls ch
      then Some (match Py_UNICODE_TODECIMAL ch with Some d => d | None => 0 end,
                 rest)
      else None
  | [] => None
  end.

Definition two (cls1 cls2 : Z -> bool) : matcher := fun s =>
  match one cls1 s with
  | Some (a, rest) =>
      match one cls2 rest with
      | Some (b, rest') => Some (10 * a + b, rest')
      | None => None
      end
  | None => None
  end.

Definition literal (c : ascii) (s : list Z) : option (list Z) :=
  match s with
  | ch :: rest => if exactly c ch then Some rest else None
  | [] => None
  end.

(** Alternatives are tried from left to right; one that matches but whose
    continuation fails is given up for the next. *)
Fixpoint first_alt {A} (alts : list matcher)
    (k : Z -> list Z -> option A) (s : list Z) : option A :=
  match alts with
  | [] => None
  | p :: alts' =>
      match (match p s with Some (v, rest) => k v rest | None => None end) with
      | Some r => Some r
      | None => first_alt alts' k s
      end
  end.

Definition re_Y : matcher := fun s =>
  match two is_decimal is_decimal s with
  | Some (hi, rest) =>
      match two is_decimal is_decimal rest with
      | Some (lo, rest') => Some (100 * hi + lo, rest')
      | None => None
      end
  | None => None
  end.

Definition re_m : list matcher :=
  [ two (exactly "1") (between "0" "2");
    two (exactly "0") (between "1" "9");
    one (between "1" "9") ].

Definition re_d : list matcher :=
  [ two (exactly "3") (between "0" "1");
    two (between "1" "2") is_decimal;
    two (exactly "0") (between "1" "9");
    one (between "1" "9");
    two (exactly " ") (between "1" "9") ].

(** [format_regex.match(data_string)]: the groups and what is left. *)
Definition format_regex_match (s : list Z)
    : option (Z * Z * Z * list Z) :=
  match re_Y s with
  | Some (Y, s1) =>
      match literal "-" s1 with
      | Some s2 =>
          first_alt re_m (fun m s3 =>
            match literal "-" s3 with
            | Some s4 => first_alt re_d (fun d s5 => Some (Y, m, d, s5)) s4
            | None => None
            end) s2
      | None => None
      end
  | None => None
  end.

Definition strptime (data_string : string) : M datetime :=
  match format_regex_match (code_points data_string) with
  | None => raise ValueError
  | Some (Y, m, d, rest) =>
      match rest with
      | [] => datetime_ymd Y m d
      | _ => raise ValueError
      end
  end.

(** [date.isoformat()], which is [str] of a date: "%04d-%02d-%02d". *)
Definition digit_char (d : Z) : ascii := ascii_of_N (Z.to_N (48 + d mod 10)).

Fixpoint zero_padded (width : nat) (n : Z) (acc : list ascii) : list ascii :=
  match width with
  | O => acc
  | S w => zero_padded w (n / 10) (digit_char n :: acc)
  end.

Definition isoformat (year month day : Z) : string :=
  string_of_list_ascii
    (zero_padded 4 year ("-" :: zero_padded 2 month ("-" :: zero_padded 2 day [])))%char.

(** *** Floats

    A Python float is a binary64 number. *)

Definition prec : Z := 53.
Definition emax : Z := 1024.

(** [PyLong_AsDouble]: the nearest float, ties to even. *)
Definition float_of_Z (n : Z) : spec_float := binary_normalize prec emax n 0 false.

(** The float nearest to [digits * 10 ^ e10], ties to even, as [strtod]
    computes it; too large a value gives an infinity, too small a zero. *)
Definition float_of_decimal (sign : bool) (digits e10 : Z) : spec_float :=
  match digits with
  | Z0 => S754_zero sign
  | Zpos d =>
      if 0 <=? e10 then binary_round prec emax sign (d * Z.to_pos (10 ^ e10)) 0
      else
        let '(q, e', l) :=
          SFdiv_core_binary prec emax (Zpos d) 0 (10 ^ (- e10)) 0 in
        binary_round_aux prec emax sign q e' l
  | Zneg _ => S754_nan
  end.

(** [Py_ISSPACE] *)
Definition is_space (c : ascii) : bool :=
  let n := N_of_ascii c in ((9 <=? n) && (n <=? 13) || (n =? 32))%N.

Definition to_lower (c : ascii) : ascii :=
  if in_range "A" "Z" c then ascii_of_N (N_of_ascii c + 32) else c.

(** [_Py_string_to_number_with_underscores]: underscores are dropped; each
    must stand between two digits. *)
Fixpoint remove_underscores (prev : ascii) (s : list ascii)
    : option (list ascii) :=
  match s with
  | [] => if Ascii.eqb prev "_" then None else Some []
  | c :: rest =>
      if Ascii.eqb c "_" then
        if is_digit prev then remove_underscores c rest else None
      else if Ascii.eqb prev "_" && negb (is_digit c) then None
      else
        match remove_underscores c rest with
        | Some r => Some (c :: r)
        | None => None
        end
  end.

Fixpoint lstrip (s : list ascii) : list ascii :=
  match s with
  | c :: rest => if is_space c then lstrip rest else s
  | [] => []
  end.

Definition rstrip (s : list ascii) : list ascii := rev (lstrip (rev s)).

(** An optional sign: [true] for minus. *)
Definition parse_sign (s : list ascii) : bool * list ascii :=
  match s with
  | c :: rest =>
      if Ascii.eqb c "-" then (true, rest)
      else if Ascii.eqb c "+" then (false, rest)
      else (false, s)
  | [] => (false, s)
  end.

(** The longest prefix of decimal digits, and the rest. *)
Fixpoint span_digits (s : list ascii) : list Z * list ascii :=
  match s with
  | c :: rest =>
      match digit c with
      | Some d => let '(ds, r) := span_digits rest in (d :: ds, r)
      | None => ([], s)
      end
  | [] => ([], [])
  end.

Definition digits_value (ds : list Z) : Z :=
  fold_left (fun acc d => 10 * acc + d) ds 0.

Fixpoint drop_zeros (ds : list Z) : list Z :=
  match ds with
  | d :: rest => if d =? 0 then drop_zeros rest else ds
  | [] => []
  end.

Definition MAX_ABS_EXP : Z := 1100000000.
Definition MAX_DIGITS : Z := 1000000000.

(** The exponent part of a literal, if [s] begins with one: its value and
    the rest.  An [e] without digits is not part of the number. *)
Definition parse_exponent (s : list ascii) : Z * list ascii :=
  match s with
  | c :: s1 =>
      if Ascii.eqb (to_lower c) "e" then
        let '(esign, s2) := parse_sign s1 in
        let '(ds, s3) := span_digits s2 in
        match ds with
        | [] => (0, s)
        | _ =>
            let sig := drop_zeros ds in
            let abs_exp :=
              if (9 <? Z.of_nat (length sig)) || (MAX_ABS_EXP <? digits_value sig)
              then MAX_ABS_EXP else digits_value sig in
            (if esign then - abs_exp else abs_exp, s3)
        end
      else (0, s)
  | [] => (0, s)
  end.

(** [_Py_dg_strtod]: sign, digits with an optional point, optional exponent.
    [None] when there is no digit. *)
Definition strtod (s : list ascii) : option (spec_float * list ascii) :=
  let '(sign, s1) := parse_sign s in
  let '(int_digits, s2) := span_digits s1 in
  let '(frac_digits, s3) :=
    match s2 with
    | c :: rest => if Ascii.eqb c "." then span_digits rest else ([], s2)
    | [] => ([], s2)
    end in
  match int_digits ++ frac_digits with
  | [] => None
  | all_digits =>
      let ndigits :=
        Z.of_nat (length (match drop_zeros int_digits with
                          | [] => drop_zeros frac_digits
                          | ds => ds ++ frac_digits
                          end)) in
      let fraclen := Z.of_nat (length frac_digits) in
      if (MAX_DIGITS <? ndigits) || (MAX_DIGITS <? fraclen) then None
      else
        let '(e, s4) := parse_exponent s3 in
        Some (float_of_decimal sign (digits_value all_digits) (e - fraclen), s4)
  end.

Fixpoint case_insensitive_match (s : list ascii) (t : list ascii)
    : option (list ascii) :=
  match t with
  | [] => Some s
  | tc :: t' =>
      match s with
      | c :: s' =>
          if Ascii.eqb (to_lower c) tc then case_insensitive_match s' t' else None
      | [] => None
      end
  end.

(** [_Py_parse_inf_or_nan] *)
Definition parse_inf_or_nan (s : list ascii) : option (spec_float * list ascii) :=
  let '(negate, s1) := parse_sign s in
  match case_insensitive_match s1 (list_ascii_of_string "inf") with
  | Some s2 =>
      match case_insensitive_match s2 (list_ascii_of_string "inity") with
      | Some s3 => Some (S754_infinity negate, s3)
      | None => Some (S754_infinity negate, s2)
      end
  | None =>
      match case_insensitive_match s1 (list_ascii_of_string "nan") with
      | Some s2 => Some (S754_nan, s2)
      | None => None
      end
  end.

(** [float(s)] for a string, [PyFloat_FromString]: the string is first made
    ASCII. *)
Definition float_from_ascii (cs : list ascii) : M spec_float :=
  match remove_underscores "000" cs with
  | None => raise ValueError
  | Some cs =>
      match rstrip (lstrip cs) with
      | [] => raise ValueError
      | body =>
          match
            match strtod body with
            | Some r => Some r
            | None => parse_inf_or_nan body
            end
          with
          | Some (x, []) => ret x
          | _ => raise ValueError
          end
      end
  end.

Definition float_from_string (s : string) : M spec_float :=
  float_from_ascii (_PyUnicode_TransformDecimalAndSpaceToASCII (code_points s)).

(** [float(v)] *)
Definition float (v : value) : M spec_float :=
  match v with
  | VFloat x => ret x
  | VInt n =>
      match float_of_Z n with
      | S754_infinity _ => raise OverflowError
      | x => ret x
      end
  | VBool b => ret (float_of_Z (if b then 1 else 0))
  | VStr s => float_from_string s
  | VNone | VDate _ _ _ | VList _ | VDict _ => raise TypeError
  end.

(** *** [timedelta(weeks=w)] for a float [w]

    The constructor ([delta_new] and [accum]) splits the float into its
    integer and fractional parts, converts the integer part exactly with
    integer arithmetic, multiplies the fractional part by the number of
    microseconds in a week in float arithmetic, and rounds what is left of a
    microsecond half to even. *)

(** [PyLong_FromDouble]: truncation towards zero. *)
Definition long_from_double (x : spec_float) : M Z :=
  match x with
  | S754_nan => raise ValueError
  | S754_infinity _ => raise OverflowError
  | S754_zero _ => ret 0
  | S754_finite s m e => ret (cond_Zopp s (Z.shiftl (Zpos m) e))
  end.

(** C's [modf]: the fractional and the integer part, both with the sign of
    the argument. *)
Definition modf (x : spec_float) : spec_float * spec_float :=
  match x with
  | S754_nan => (S754_nan, S754_nan)
  | S754_infinity s => (S754_zero s, x)
  | S754_zero s => (x, x)
  | S754_finite s m e =>
      if 0 <=? e then (S754_zero s, x)
      else
        let q := Z.shiftr (Zpos m) (- e) in
        let r := Zpos m - Z.shiftl q (- e) in
        (binary_normalize prec emax (cond_Zopp s r) e s,
         binary_normalize prec emax (cond_Zopp s q) 0 s)
  end.

Definition is_zero (x : spec_float) : bool :=
  match x with S754_zero _ => true | _ => false end.

(** A float of magnitude below one as a fraction [n / 2 ^ k]. *)
Definition fraction_of (x : spec_float) : Z * Z :=
  match x with
  | S754_finite s m e =>
      if 0 <=? e then (cond_Zopp s (Z.shiftl (Zpos m) e), 0)
      else (cond_Zopp s (Zpos m), - e)
  | _ => (0, 0)
  end.

(** C's [round] on [n / 2 ^ k]: to the nearest integer, halves away from
    zero. *)
Definition round_half_away (n k : Z) : Z :=
  let q := Z.abs n / 2 ^ k in
  let r := Z.abs n mod 2 ^ k in
  Z.sgn n * (if 2 ^ k <=? 2 * r then q + 1 else q).

Definition is_halfway (n k : Z) : bool := 2 * (Z.abs n mod 2 ^ k) =? 2 ^ k.

(** The rounding of [leftover_us] in [delta_new], where [x] is the whole
    number of microseconds found so far. *)
Definition round_leftover (x : Z) (leftover_us : spec_float) : Z :=
  let '(n, k) := fraction_of leftover_us in
  let whole_us := round_half_away n k in
  if is_halfway n k then
    let x_is_odd := if Z.odd x then 1 else 0 in
    2 * round_half_away (n + x_is_odd * 2 ^ k) (k + 1) - x_is_odd
  else whole_us.

(** [accum("weeks", 0, w, us_per_week, &leftover_us)]: the whole
    microseconds and the fraction left over. *)
Definition accum (sofar : Z) (num : spec_float) (factor : Z)
    : M (Z * spec_float) :=
  let '(fracpart, intpart) := modf num in
  x ← long_from_double intpart;
  let sum := sofar + x * factor in
  if is_zero fracpart then ret (sum, S754_zero false)
  else
    let dnum := SFmul prec emax (float_of_Z factor) fracpart in
    let '(fracpart, intpart) := modf dnum in
    x ← long_from_double intpart;
    ret (sum + x, fracpart).

(** [timedelta(weeks=w)]: [ValueError] for a NaN, [OverflowError] for an
    infinity or for more than 999999999 days. *)
Definition timedelta_weeks (w : spec_float) : M timedelta :=
  '(x, leftover_us) ← accum 0 w us_per_week;
  let x := if is_zero leftover_us then x else x + round_leftover x leftover_us in
  if (-999999999 <=? x / us_per_day) && (x / us_per_day <=? 999999999) then ret x
  else raise OverflowError.

End Python.

(** ** The schedule resolver *)

Module Gantt.
Import Python.

(** One entry of [tasks_data], a row of the returned data frame. *)
Record row : Type := {
  Task : value;
  Start : datetime;
  End_ : datetime;
  DurationDays : Z
}.

(** The loaded configuration: the [project] mapping and the [tasks]
    sequence of mappings. *)
Record config : Type := {
  project : gmap string value;
  tasks : list (gmap string value)
}.

(** [datetime.strptime(str(date_str), "%Y-%m-%d")].  [str] of a date is its
    ISO form; [str] of a null, a boolean, a number, a sequence or a mapping
    never has the shape of the format (four digits and a dash first), so
    [strptime] raises [ValueError] on it. *)
Definition parse_date (date_str : value) : M datetime :=
  match date_str with
  | VStr s => strptime s
  | VDate year month day => strptime (isoformat year month day)
  | _ => raise ValueError
  end.

(** The body of the [for task in config["tasks"]] loop: the row appended to
    [tasks_data] and the value of [current_date] after the iteration. *)
Definition resolve_task (project_start project_end current_date : datetime)
    (task : gmap string value) : M (row * datetime) :=
  name ← getitem task "name";
  duration_val ← getitem task "duration_weeks";
  let manual_start := get task "start_date" in
  start_date ←
    (if truthy manual_start then parse_date manual_start else ret current_date);
  '(start_date, end_date) ←
    (if eq_str duration_val "start2end" then
       if truthy manual_start then
         start_date ← parse_date manual_start;
         ret (start_date, project_end)
       else ret (project_start, project_end)
     else
       try_except
         (weeks ← float duration_val;
          delta ← timedelta_weeks weeks;
          end_date ← datetime_add start_date delta;
          ret (start_date, end_date))
         ValueError
         (print (ErrInvalidDuration duration_val name);; sys_exit 1));
  let current_date :=
    if negb (eq_str duration_val "start2end") then end_date else current_date in
  ret ({| Task := name; Start := start_date; End_ := end_date;
          DurationDays := days (datetime_sub end_date start_date) |},
       current_date).

(** The loop itself, over the tasks that remain. *)
Fixpoint for_tasks (project_start project_end current_date : datetime)
    (tasks_data : list row) (tasks : list (gmap string value))
    : M (list row) :=
  match tasks with
  | [] => ret tasks_data
  | task :: rest =>
      '(r, current_date) ← resolve_task project_start project_end current_date task;
      for_tasks project_start project_end current_date (tasks_data ++ [r]) rest
  end.

Definition calculate_schedule (config : config)
    : M (list row * datetime * datetime) :=
  start_date ← getitem (project config) "start_date";
  project_start ← parse_date start_date;
  end_date ← getitem (project config) "end_date";
  project_end ← parse_date end_date;
  let total_duration_days := days (datetime_sub project_end project_start) in
  (if 450 <? total_duration_days then
     print (WarnDuration total_duration_days);; print WarnCrowded
   else ret tt);;
  let current_date := project_start in
  tasks_data ← for_tasks project_start project_end current_date [] (tasks config);
  ret (tasks_data, project_start, project_end).

End Gantt.

(** ** Vocabulary of the properties *)

Module Schedule.
Import Python Gantt.

(** Midnight of a calendar day. *)
Definition date (year month day : Z) : datetime :=
  _ymd2ord year month day * us_per_day.

(** The fixed start date a task supplies, if it supplies one. *)
Definition manual_start (task : gmap string value) : value :=
  get task "start_date".

(** A task built from its three entries. *)
Definition make_task (name duration_weeks : value) (start_date : option value)
    : gmap string value :=
  let t := <["name" := name]> (<["duration_weeks" := duration_weeks]> ∅) in
  match start_date with
  | Some d => <["start_date" := d]> t
  | None => t
  end.

Definition make_project (start_date end_date : value) : gmap string value :=
  <["start_date" := start_date]> (<["end_date" := end_date]> ∅).

Definition make_row (name : value) (start_date end_date : datetime) : row :=
  {| Task := name; Start := start_date; End_ := end_date;
     DurationDays := days (datetime_sub end_date start_date) |}.

(** What one iteration of the loop yields when it completes: the row [r] and
    the next value [next] of the cursor, for the cursor [current_date]. *)
Definition resolved (project_start project_end current_date : datetime)
    (task : gmap string value) (r : row) (next : datetime) : Prop :=
  exists name duration_val,
    task !! "name" = Some name /\
    task !! "duration_weeks" = Some duration_val /\
    r = make_row name (Start r) (End_ r) /\
    if eq_str duration_val "start2end" then
      End_ r = project_end /\ next = current_date /\
      (if truthy (manual_start task)
       then parse_date (manual_start task) = ret (Start r)
       else Start r = project_start)
    else
      (if truthy (manual_start task)
       then parse_date (manual_start task) = ret (Start r)
       else Start r = current_date) /\
      next = End_ r /\
      exists weeks delta,
        float duration_val = ret weeks /\
        timedelta_weeks weeks = ret delta /\
        datetime_add (Start r) delta = ret (End_ r).

(** A run of the loop that completes: the cursor before, the tasks, the rows
    appended and the cursor after. *)
Inductive steps (project_start project_end : datetime)
    : datetime -> list (gmap string value) -> list row -> datetime -> Prop :=
| steps_nil current_date :
    steps project_start project_end current_date [] [] current_date
| steps_cons current_date task r next rest rows final :
    resolve_task project_start project_end current_date task
      = ret (r, next) ->
    steps project_start project_end next rest rows final ->
    steps project_start project_end current_date (task :: rest) (r :: rows) final.

(** The advisory printed before the loop when the project is longer than
    450 days. *)
Definition warning_lines (ps pe : datetime) : list line :=
  if 450 <? days (datetime_sub pe ps)
  then [WarnDuration (days (datetime_sub pe ps)); WarnCrowded] else [].

(** The integer a float stands for, when it has no fractional part. *)
Definition whole_weeks (w : spec_float) (n : Z) : Prop :=
  is_zero (modf w).1 = true /\ long_from_double (modf w).2 = ret n.

(** The configuration of the worked example: three tasks between
    2026-02-01 and 2026-04-01, none with a fixed start. *)
Definition example_config : config := {|
  project := make_project (VStr "2026-02-01") (VStr "2026-04-01");
  tasks := [ make_task (VStr "Lit Review") (VInt 3) None;
             make_task (VStr "Pilot") (VStr "start2end") None;
             make_task (VStr "Writeup") (VInt 2) None ]
|}.

(** Tasks A (2 weeks), B (span to end) and C (3 weeks) from 2026-01-01, for
    any end of the project. *)
Definition overlay_config (end_date : value) : config := {|
  project := make_project (VStr "2026-01-01") end_date;
  tasks := [ make_task (VStr "A") (VInt 2) None;
             make_task (VStr "B") (VStr "start2end") None;
             make_task (VStr "C") (VInt 3) None ]
|}.

(** A (2 weeks) and then two span-to-end tasks, none with a fixed start. *)
Definition two_overlays_config : config := {|
  project := make_project (VStr "2026-01-01") (VStr "2026-06-30");
  tasks := [ make_task (VStr "A") (VInt 2) None;
             make_task (VStr "B") (VStr "start2end") None;
             make_task (VStr "C") (VStr "start2end") None ]
|}.

(** Half a week, the float written [0.5]. *)
Definition half_week : spec_float := float_of_decimal false 5 (-1).

(** Three tasks in a row, none with a fixed start, the second of half a
    week. *)
Definition sequential_config : config := {|
  project := make_project (VStr "2026-01-01") (VDate 2026 6 30);
  tasks := [ make_task (VStr "A") (VInt 2) None;
             make_task (VStr "B") (VFloat half_week) None;
             make_task (VStr "C") (VStr "3") None ]
|}.

(** A task of two weeks fixed at 2026-03-01. *)
Definition fixed_task : gmap string value :=
  make_task (VStr "Review") (VInt 2) (Some (VStr "2026-03-01")).

(** A duration that is a string or a number; [float] of anything else (a
    null, a date, a sequence, a mapping) is a [TypeError]. *)
Definition string_or_number (d : value) : bool :=
  match d with
  | VStr _ | VInt _ | VFloat _ | VBool _ => true
  | _ => false
  end.

(** The [try] block of the iteration, with the row built inside it. *)
Definition try_duration (name duration_val : value) (start_date : datetime)
    : M (row * datetime) :=
  try_except
    (weeks ← float duration_val;
     delta ← timedelta_weeks weeks;
     end_date ← datetime_add start_date delta;
     ret (make_row name start_date end_date, end_date))
    ValueError
    (print (ErrInvalidDuration duration_val name);; sys_exit 1).


(** One iteration from 2026-01-01 for a task named T of the given
    duration. *)
Definition resolve_duration (duration_weeks : value) : M (row * datetime) :=
  resolve_task (date 2026 1 1) (date 2026 6 30) (date 2026 1 1)
    (make_task (VStr "T") duration_weeks None).

End Schedule.

(** ** The chart's time window

    [create_gantt_chart] draws with matplotlib; what it computes from the
    dates alone is the window of the x axis and whether the marker of
    today's date is drawn. *)

Module Chart.
Import Python Gantt.

(** [timedelta(weeks=n)] for an int [n]: exact, [OverflowError] for more
    than 999999999 days. *)
Definition timedelta_weeks_int (weeks : Z) : M timedelta :=
  let x := weeks * us_per_week in
  if (-999999999 <=? x / us_per_day) && (x / us_per_day <=? 999999999) then ret x
  else raise OverflowError.

(** The limits of the x axis:
    [plot_start_lim = datetime(project_start.year, project_start.month, 1)]
    and [plot_end_lim = project_end + timedelta(weeks=3)]. *)
Definition plot_limits (project_start project_end : datetime)
    : M (datetime * datetime) :=
  let '(year, month, _) := date_of project_start in
  plot_start_lim ← datetime_ymd year month 1;
  delta ← timedelta_weeks_int 3;
  plot_end_lim ← datetime_add project_end delta;
  ret (plot_start_lim, plot_end_lim).

(** The marker of today's date: when [config["project"]["today_date"]] is not
    the empty string it is parsed, and the line is drawn at it if
    [plot_start_lim <= today <= plot_end_lim].  The result is the date of
    the line, if one is drawn. *)
Definition today_marker (project : gmap string value)
    (plot_start_lim plot_end_lim : datetime) : M (option datetime) :=
  today_date ← getitem project "today_date";
  if negb (eq_str today_date "") then
    today ← parse_date today_date;
    if (plot_start_lim <=? today) && (today <=? plot_end_lim)
    then ret (Some today) else ret None
  else ret None.

End Chart.

(** ** Vocabulary of the further properties *)

Module Calendar.
Import Python Gantt.

(** A day between 0001-01-01 and 9999-12-31. *)
Definition in_calendar (d : datetime) : Prop := 1 <= toordinal d <= _MAXORDINAL.

(** The month and the day of day [n] of a year, counted from 0: the last
    part of [_ord2ymd]. *)
Definition month_day (leapyear : bool) (n : Z) : Z * Z :=
  let month := Z.shiftr (n + 50) 5 in
  let preceding :=
    _DAYS_BEFORE_MONTH month + (if (2 <? month) && leapyear then 1 else 0) in
  if n <? preceding then
    let month := month - 1 in
    let preceding :=
      preceding
      - (_DAYS_IN_MONTH month + (if (month =? 2) && leapyear then 1 else 0)) in
    (month, n - preceding + 1)
  else (month, n - preceding + 1).

(** Day [day] of month [month] is what [month_day] finds at its place in
    the year, when the month has such a day. *)
Definition month_day_agrees (leapyear : bool) (month day : Z) : bool :=
  (_DAYS_IN_MONTH month + (if (month =? 2) && leapyear then 1 else 0) <? day)
  || (let '(m, d) :=
        month_day leapyear
          (_DAYS_BEFORE_MONTH month
           + (if (2 <? month) && leapyear then 1 else 0) + day - 1) in
      (m =? month) && (d =? day)).

(** Day [n] of the year, from 0, is the day [month_day] says. *)
Definition day_of_year_agrees (leapyear : bool) (n : Z) : bool :=
  let '(m, d) := month_day leapyear n in
  (1 <=? m) && (m <=? 12) && (1 <=? d)
  && (d <=? _DAYS_IN_MONTH m + (if (m =? 2) && leapyear then 1 else 0))
  && (_DAYS_BEFORE_MONTH m + (if (2 <? m) && leapyear then 1 else 0) + d - 1
      =? n).

End Calendar.

Module Direction.
Import Python Gantt.

(** A float that is not below zero: a zero of either sign, a positive
    number or plus infinity. *)
Definition nonnegative (w : spec_float) : bool :=
  match w with
  | S754_zero _ | S754_finite false _ _ | S754_infinity false => true
  | _ => false
  end.

(** A task that cannot move the cursor backwards: a span to the end, or a
    numeric duration that is not negative. *)
Definition forward (task : gmap string value) : Prop :=
  eq_str (get task "duration_weeks") "start2end" = true
  \/ exists w, float (get task "duration_weeks") = ret w /\ nonnegative w = true.

End Direction.

(** ** Properties *)

Import Python Gantt Schedule.

(** *** The computation monad *)

Lemma bind_unfold {A B} (m : M A) (k : A -> M B) : m ≫= k = bind m k.
Proof. reflexivity. Qed.

Lemma bind_ret_l {A B} (a : A) (k : A -> M B) : ret a ≫= k = k a.
Proof. rewrite bind_unfold. unfold bind, ret. destruct (k a). reflexivity. Qed.

Lemma bind_Return {A B} (m : M A) (k : A -> M B) out b :
  m ≫= k = (out, Return b) ->
  exists o1 a o2, m = (o1, Return a) /\ k a = (o2, Return b) /\ out = o1 ++ o2.
Proof.
  rewrite bind_unfold. unfold bind.
  destruct m as [o1 [a|e|c]]; try discriminate.
  destruct (k a) as [o2 r] eqn:Hk. intros [= <- ->]. eauto 6.
Qed.

Lemma bind_silent {A B} (m : M A) (k : A -> M B) :
  m.1 = [] -> (forall a, (k a).1 = []) -> (m ≫= k).1 = [].
Proof.
  rewrite bind_unfold. unfold bind. intros Hm Hk.
  destruct m as [o [a|e|c]]; simpl in *; subst; try reflexivity.
  specialize (Hk a). destruct (k a). simpl in *. assumption.
Qed.


(** *** Only the error handler prints *)

Lemma datetime_ymd_silent y m d : (datetime_ymd y m d).1 = [].
Proof. unfold datetime_ymd. case_match; reflexivity. Qed.

Lemma strptime_silent s : (strptime s).1 = [].
Proof.
  unfold strptime. repeat case_match; try reflexivity.
  apply datetime_ymd_silent.
Qed.

Lemma parse_date_silent v : (parse_date v).1 = [].
Proof. destruct v; try reflexivity; apply strptime_silent. Qed.

Lemma float_silent v : (float v).1 = [].
Proof.
  destruct v; simpl; unfold float_from_string, float_from_ascii;
    repeat case_match; reflexivity.
Qed.

Lemma long_from_double_silent x : (long_from_double x).1 = [].
Proof. destruct x; reflexivity. Qed.

Lemma accum_silent sofar num factor : (accum sofar num factor).1 = [].
Proof.
  unfold accum. destruct (modf num) as [fracpart intpart].
  apply bind_silent; [apply long_from_double_silent|]. intros x.
  case_match; [reflexivity|].
  destruct (modf _) as [f i].
  apply bind_silent; [apply long_from_double_silent|]. reflexivity.
Qed.

Lemma timedelta_weeks_silent w : (timedelta_weeks w).1 = [].
Proof.
  unfold timedelta_weeks. apply bind_silent; [apply accum_silent|].
  intros [x l]. case_match; reflexivity.
Qed.

Lemma datetime_add_silent d t : (datetime_add d t).1 = [].
Proof. unfold datetime_add. case_match; reflexivity. Qed.

(** A computation that prints nothing is determined by its outcome. *)
Lemma silent_eq {A} (m : M A) : m.1 = [] -> m = ([], m.2).
Proof. destruct m; simpl; intros ->; reflexivity. Qed.

Ltac silent_cases m lem :=
  let o := fresh "o" in
  let r := fresh "r" in
  let E := fresh "E" in
  let Hs := fresh "Hs" in
  pose proof lem as Hs;
  destruct m as [o r] eqn:E; simpl in Hs; subst o.

(** *** One iteration of the loop *)

Ltac step_Return m lem :=
  let x := fresh "x" in
  let e := fresh "e" in
  let c := fresh "c" in
  silent_cases m lem;
  match goal with
  | r : outcome _ |- _ =>
      destruct r as [x|e|c]; [|try destruct e; discriminate|discriminate];
      change ([], Return x) with (ret x) in *; rewrite ?bind_ret_l
  end.

Lemma resolve_task_Return ps pe cur task out r next :
  resolve_task ps pe cur task = (out, Return (r, next)) ->
  out = [] /\ resolved ps pe cur task r next.
Proof.
  unfold resolve_task, resolved, manual_start, getitem.
  destruct (task !! "name") as [name|]; [|discriminate].
  destruct (task !! "duration_weeks") as [d|]; [|discriminate].
  rewrite !bind_ret_l.
  destruct (truthy (get task "start_date")) eqn:Hms.
  - step_Return (parse_date (get task "start_date"))
      (parse_date_silent (get task "start_date")).
    destruct (eq_str d "start2end") eqn:Hd.
    + rewrite !bind_ret_l. simpl. intros [= <- <- <-]. split; [reflexivity|].
      exists name, d. rewrite Hd. simpl. auto 10.
    + step_Return (float d) (float_silent d).
      step_Return (timedelta_weeks x0) (timedelta_weeks_silent x0).
      step_Return (datetime_add x x1) (datetime_add_silent x x1).
      simpl. intros [= <- <- <-]. split; [reflexivity|].
      exists name, d. rewrite Hd. simpl. eauto 10.
  - destruct (eq_str d "start2end") eqn:Hd.
    + rewrite !bind_ret_l. simpl. intros [= <- <- <-]. split; [reflexivity|].
      exists name, d. rewrite Hd. simpl. auto 10.
    + step_Return (float d) (float_silent d).
      step_Return (timedelta_weeks x) (timedelta_weeks_silent x).
      step_Return (datetime_add cur x0) (datetime_add_silent cur x0).
      simpl. intros [= <- <- <-]. split; [reflexivity|].
      exists name, d. rewrite Hd. simpl. eauto 10.
Qed.

Lemma resolved_resolve_task ps pe cur task r next :
  resolved ps pe cur task r next ->
  resolve_task ps pe cur task = ret (r, next).
Proof.
  unfold resolve_task, resolved, manual_start, getitem.
  intros (name & d & -> & -> & Hr & H). rewrite !bind_ret_l.
  rewrite Hr. unfold make_row.
  destruct (eq_str d "start2end") eqn:Hd.
  - destruct H as (-> & -> & H).
    destruct (truthy (get task "start_date")).
    + rewrite H, !bind_ret_l. reflexivity.
    + rewrite H, !bind_ret_l. reflexivity.
  - destruct H as (Hs & -> & weeks & delta & Hf & Ht & Ha).
    assert (Hstart : (if truthy (get task "start_date")
                      then parse_date (get task "start_date")
                      else ret cur) = ret (Start r)).
    { destruct (truthy (get task "start_date")); congruence. }
    rewrite Hstart, !bind_ret_l, Hf, !bind_ret_l, Ht, !bind_ret_l, Ha.
    reflexivity.
Qed.

(** *** The loop *)

Lemma for_tasks_Return ps pe tasks : forall cur data out rows,
  for_tasks ps pe cur data tasks = (out, Return rows) ->
  out = [] /\ exists new final, steps ps pe cur tasks new final /\ rows = data ++ new.
Proof.
  induction tasks as [|task rest IH]; intros cur data out rows; simpl.
  - intros [= <- <-]. split; [reflexivity|].
    exists [], cur. split; [constructor|]. by rewrite app_nil_r.
  - intros H. apply bind_Return in H as (o1 & [r next] & o2 & H1 & H2 & ->).
    apply resolve_task_Return in H1 as H1'. destruct H1' as [-> _].
    apply IH in H2 as (-> & new & final & Hsteps & ->).
    split; [reflexivity|].
    exists (r :: new), final. split; [econstructor; eassumption|].
    by rewrite <- app_assoc.
Qed.

Lemma steps_prefix ps pe cur before rows mid :
  steps ps pe cur before rows mid ->
  forall data rest,
    for_tasks ps pe cur data (before ++ rest)
    = for_tasks ps pe mid (data ++ rows) rest.
Proof.
  induction 1 as [cur|cur task r next rest' rows final Hr _ IH];
    intros data rest; simpl.
  - by rewrite app_nil_r.
  - rewrite Hr, bind_ret_l, IH, <- app_assoc. reflexivity.
Qed.

Lemma steps_for_tasks ps pe cur tasks rows final data :
  steps ps pe cur tasks rows final ->
  for_tasks ps pe cur data tasks = ret (data ++ rows).
Proof.
  intros H. pose proof (steps_prefix _ _ _ _ _ _ H data []) as Hp.
  rewrite app_nil_r in Hp. exact Hp.
Qed.

Lemma steps_app_inv ps pe before : forall cur rest rows final,
  steps ps pe cur (before ++ rest) rows final ->
  exists rows1 rows2 mid,
    rows = rows1 ++ rows2 /\ steps ps pe cur before rows1 mid /\
    steps ps pe mid rest rows2 final.
Proof.
  induction before as [|task before IH]; intros cur rest rows final H; simpl in H.
  - exists [], rows, cur. repeat split; [constructor|assumption].
  - inversion H as [|? ? r next ? rows' ? Hr Hrest]; subst.
    apply IH in Hrest as (rows1 & rows2 & mid & -> & H1 & H2).
    exists (r :: rows1), rows2, mid. repeat split; [|assumption].
    econstructor; eassumption.
Qed.

Lemma steps_length ps pe cur tasks rows final :
  steps ps pe cur tasks rows final -> length rows = length tasks.
Proof. induction 1; simpl; congruence. Qed.

(** The row of the task at index [i], with the cursor it was resolved
    from. *)
Lemma steps_lookup ps pe cur tasks rows final :
  steps ps pe cur tasks rows final ->
  forall i task, tasks !! i = Some task ->
  exists before after rows1 r rows2 c next,
    tasks = before ++ task :: after /\ length before = i /\
    rows = rows1 ++ r :: rows2 /\ length rows1 = i /\
    steps ps pe cur before rows1 c /\
    resolve_task ps pe c task = ret (r, next) /\
    steps ps pe next after rows2 final.
Proof.
  induction 1 as [cur|cur task0 r0 next0 rest rows final Hr Hs IH]; intros i task Hi.
  - destruct i; discriminate.
  - destruct i as [|i]; simpl in Hi.
    + injection Hi as <-.
      exists [], rest, [], r0, rows, cur, next0.
      repeat split; [constructor|assumption|assumption].
    + destruct (IH i task Hi)
        as (before & after & rows1 & r & rows2 & c & next & -> & <- & -> & Hl & H1 & H2 & H3).
      exists (task0 :: before), after, (r0 :: rows1), r, rows2, c, next.
      repeat split; simpl; try congruence.
      econstructor; eassumption.
Qed.

Lemma calculate_schedule_unfold config ps pe sv ev :
  project config !! "start_date" = Some sv -> parse_date sv = ret ps ->
  project config !! "end_date" = Some ev -> parse_date ev = ret pe ->
  calculate_schedule config =
    let '(out, r) := for_tasks ps pe ps [] (tasks config) in
    (warning_lines ps pe ++ out,
     match r with
     | Return rows => Return (rows, ps, pe)
     | Raise e => Raise e
     | SysExit c => SysExit c
     end).
Proof.
  intros Hs Hps He Hpe. unfold calculate_schedule, getitem, warning_lines.
  rewrite Hs, bind_ret_l, Hps, bind_ret_l, He, bind_ret_l, Hpe, bind_ret_l.
  destruct (for_tasks ps pe ps [] (tasks config)) as [out r].
  destruct (450 <? days (datetime_sub pe ps)); destruct r;
    rewrite !bind_unfold; simpl; rewrite ?app_nil_r; reflexivity.
Qed.

Lemma calculate_schedule_Return config out rows ps pe :
  calculate_schedule config = (out, Return (rows, ps, pe)) ->
  exists sv ev final,
    project config !! "start_date" = Some sv /\ parse_date sv = ret ps /\
    project config !! "end_date" = Some ev /\ parse_date ev = ret pe /\
    out = warning_lines ps pe /\
    steps ps pe ps (tasks config) rows final.
Proof.
  intros H.
  destruct (project config !! "start_date") as [sv|] eqn:Hs.
  2:{ unfold calculate_schedule, getitem in H. rewrite Hs in H. discriminate. }
  silent_cases (parse_date sv) (parse_date_silent sv).
  destruct r as [ps'|e|c].
  2,3: unfold calculate_schedule, getitem in H;
       rewrite Hs, bind_ret_l, E in H; discriminate.
  destruct (project config !! "end_date") as [ev|] eqn:He.
  2:{ unfold calculate_schedule, getitem in H.
      rewrite Hs, bind_ret_l, E, He in H. discriminate. }
  silent_cases (parse_date ev) (parse_date_silent ev).
  destruct r as [pe'|e|c].
  2,3: unfold calculate_schedule, getitem in H;
       rewrite Hs, bind_ret_l, E, He in H;
       change ([], Return ps') with (ret ps') in H;
       rewrite !bind_ret_l, E0 in H; discriminate.
  rewrite (calculate_schedule_unfold config ps' pe' sv ev) in H by assumption.
  destruct (for_tasks ps' pe' ps' [] (tasks config)) as [o r] eqn:Hf.
  destruct r as [rows'|e|c]; try discriminate.
  injection H as <- -> -> ->.
  apply for_tasks_Return in Hf as (-> & new & final & Hsteps & ->).
  exists sv, ev, final. rewrite app_nil_r. simpl. auto 10.
Qed.

(** *** The worked example *)

(** C1: for the project from 2026-02-01 to 2026-04-01 with the tasks
    Lit Review (3 weeks), Pilot (start2end) and Writeup (2 weeks), none with a
    fixed start, [calculate_schedule] prints nothing and returns, in this
    order, Lit Review = (2026-02-01, 2026-02-22), Pilot = (2026-02-01,
    2026-04-01) and Writeup = (2026-02-22, 2026-03-08), each at midnight. *)
Theorem example_schedule :
  calculate_schedule example_config =
    ([], Return ([ make_row (VStr "Lit Review") (date 2026 2 1) (date 2026 2 22);
                   make_row (VStr "Pilot") (date 2026 2 1) (date 2026 4 1);
                   make_row (VStr "Writeup") (date 2026 2 22) (date 2026 3 8) ],
                 date 2026 2 1, date 2026 4 1))
  /\ map (fun d => (date_of d, time_of d))
       [date 2026 2 1; date 2026 2 22; date 2026 3 8; date 2026 4 1]
     = [((2026, 2, 1), 0); ((2026, 2, 22), 0); ((2026, 3, 8), 0); ((2026, 4, 1), 0)].
Proof. split; vm_compute; reflexivity. Qed.

(** *** Tasks that span to the end of the project *)

(** C2: a task whose duration is "start2end" and that has no fixed start
    resolves to exactly (project start, project end): whatever the cursor is
    when the loop reaches it, and at whatever position of the task list it
    stands in a run that completes. *)
Theorem span_to_end_covers_project ps pe task name :
  task !! "name" = Some name ->
  task !! "duration_weeks" = Some (VStr "start2end") ->
  truthy (manual_start task) = false ->
  (forall cur, resolve_task ps pe cur task = ret (make_row name ps pe, cur))
  /\ (forall config out rows i,
        calculate_schedule config = (out, Return (rows, ps, pe)) ->
        tasks config !! i = Some task ->
        rows !! i = Some (make_row name ps pe)).
Proof.
  intros Hn Hd Hm.
  assert (Hbody : forall cur,
             resolve_task ps pe cur task = ret (make_row name ps pe, cur)).
  { intros cur. apply resolved_resolve_task. exists name, (VStr "start2end").
    simpl. rewrite Hm. auto 10. }
  split; [exact Hbody|].
  intros config out rows i Hrun Hi.
  apply calculate_schedule_Return in Hrun
    as (sv & ev & final & _ & _ & _ & _ & _ & Hsteps).
  destruct (steps_lookup _ _ _ _ _ _ Hsteps i task Hi)
    as (before & after & rows1 & r & rows2 & c & next
        & _ & _ & -> & <- & _ & Hr & _).
  rewrite Hbody in Hr. injection Hr as <- <-.
  rewrite lookup_app_r by lia. by rewrite Nat.sub_diag.
Qed.

Lemma span_to_end_covers_project_witness :
  let task := make_task (VStr "Pilot") (VStr "start2end") None in
  (task !! "name" = Some (VStr "Pilot")
   /\ task !! "duration_weeks" = Some (VStr "start2end")
   /\ truthy (manual_start task) = false)
  /\ resolve_task (date 2026 2 1) (date 2026 4 1) (date 2026 2 22) task
     = ret (make_row (VStr "Pilot") (date 2026 2 1) (date 2026 4 1),
            date 2026 2 22)
  /\ example_config.(tasks) !! 1%nat = Some task.
Proof.
  intros task.
  assert (H1 : task !! "name" = Some (VStr "Pilot")) by reflexivity.
  assert (H2 : task !! "duration_weeks" = Some (VStr "start2end")) by reflexivity.
  assert (H3 : truthy (manual_start task) = false) by reflexivity.
  split; [auto|]. split; [|reflexivity].
  exact (proj1 (span_to_end_covers_project (date 2026 2 1) (date 2026 4 1)
                  task (VStr "Pilot") H1 H2 H3) (date 2026 2 22)).
Defined.

Lemma eq_str_spec v s : eq_str v s = true <-> v = VStr s.
Proof.
  destruct v; simpl; try (split; [discriminate|intros [=]]).
  rewrite String.eqb_eq. split; [intros ->; reflexivity|intros [= ->]; reflexivity].
Qed.

(** An unanchored span-to-end task: its row and the untouched cursor. *)
Lemma resolve_task_overlay ps pe cur task name :
  task !! "name" = Some name ->
  task !! "duration_weeks" = Some (VStr "start2end") ->
  truthy (manual_start task) = false ->
  resolve_task ps pe cur task = ret (make_row name ps pe, cur).
Proof.
  intros Hn Hd Hm. apply resolved_resolve_task.
  exists name, (VStr "start2end"). simpl. rewrite Hm. auto 10.
Qed.

(** C3, as the code has it: resolving a span-to-end task leaves the cursor
    as it was, so the task after it, when it has no fixed start and a
    numeric duration, starts where the cursor stood before the span-to-end
    task.  For A (2 weeks),
    B (span to end), C (3 weeks) from 2026-01-01, whatever the end of the
    project, C starts at the end of A, 2026-01-15. *)
Theorem span_to_end_keeps_cursor :
  (forall ps pe cur task out r next,
      task !! "duration_weeks" = Some (VStr "start2end") ->
      resolve_task ps pe cur task = (out, Return (r, next)) ->
      next = cur)
  /\ (forall ps pe cur data span task rest out rows,
        span !! "duration_weeks" = Some (VStr "start2end") ->
        truthy (manual_start task) = false ->
        eq_str (get task "duration_weeks") "start2end" = false ->
        for_tasks ps pe cur data (span :: task :: rest) = (out, Return rows) ->
        exists b c,
          rows !! length data = Some b /\ rows !! S (length data) = Some c /\
          Start c = cur)
  /\ (forall end_date pe,
        parse_date end_date = ret pe ->
        exists a b c,
          calculate_schedule (overlay_config end_date)
          = (warning_lines (date 2026 1 1) pe,
             Return ([a; b; c], date 2026 1 1, pe))
          /\ End_ a = date 2026 1 15
          /\ (date_of (End_ a), time_of (End_ a)) = ((2026, 1, 15), 0)
          /\ Start c = End_ a
          /\ (Start b, End_ b) = (date 2026 1 1, pe)).
Proof.
  assert (Hcur : forall ps pe cur task out r next,
             task !! "duration_weeks" = Some (VStr "start2end") ->
             resolve_task ps pe cur task = (out, Return (r, next)) ->
             next = cur).
  { intros ps pe cur task out r next Hd Hr.
    apply resolve_task_Return in Hr as (_ & name & d & _ & Hd' & _ & H).
    rewrite Hd in Hd'. injection Hd' as <-. simpl in H. tauto. }
  split; [exact Hcur|]. split.
  - intros ps pe cur data span task rest out rows Hd Hm Hnum Hrun.
    apply for_tasks_Return in Hrun as (_ & new & final & Hsteps & ->).
    inversion Hsteps as [|? ? b next ? rows1 ? Hb Hrest]; subst.
    inversion Hrest as [|? ? c next' ? rows2 ? Hc _]; subst.
    apply Hcur in Hb; [|assumption]. subst next.
    apply resolve_task_Return in Hc as (_ & name & d & _ & Hd' & _ & H).
    unfold get in Hnum. rewrite Hd' in Hnum. rewrite Hnum, Hm in H.
    exists b, c. repeat split.
    + rewrite lookup_app_r by lia. by rewrite Nat.sub_diag.
    + rewrite lookup_app_r by lia.
      by replace (S (length data) - length data)%nat with 1%nat by lia.
    + tauto.
  - intros end_date pe Hpe.
    exists (make_row (VStr "A") (date 2026 1 1) (date 2026 1 15)),
           (make_row (VStr "B") (date 2026 1 1) pe),
           (make_row (VStr "C") (date 2026 1 15) (date 2026 2 5)).
    split; [|repeat split; vm_compute; reflexivity].
    rewrite (calculate_schedule_unfold _ (date 2026 1 1) pe
               (VStr "2026-01-01") end_date);
      [|reflexivity|vm_compute; reflexivity|reflexivity|exact Hpe].
    unfold overlay_config, tasks. cbn [for_tasks].
    replace (resolve_task (date 2026 1 1) pe (date 2026 1 1)
               (make_task (VStr "A") (VInt 2) None))
      with (ret (make_row (VStr "A") (date 2026 1 1) (date 2026 1 15),
                 date 2026 1 15))
      by (vm_compute; reflexivity).
    rewrite bind_ret_l.
    rewrite (resolve_task_overlay _ _ _ _ (VStr "B")) by reflexivity.
    rewrite bind_ret_l.
    replace (resolve_task (date 2026 1 1) pe (date 2026 1 15)
               (make_task (VStr "C") (VInt 3) None))
      with (ret (make_row (VStr "C") (date 2026 1 15) (date 2026 2 5),
                 date 2026 2 5))
      by (vm_compute; reflexivity).
    rewrite bind_ret_l. simpl. rewrite app_nil_r. reflexivity.
Qed.

Lemma span_to_end_keeps_cursor_witness :
  let task := make_task (VStr "B") (VStr "start2end") None in
  let ps := date 2026 1 1 in
  let pe := date 2026 6 30 in
  let cur := date 2026 1 15 in
  task !! "duration_weeks" = Some (VStr "start2end")
  /\ resolve_task ps pe cur task = ([], Return (make_row (VStr "B") ps pe, cur))
  /\ cur = cur.
Proof.
  intros task ps pe cur.
  assert (H1 : task !! "duration_weeks" = Some (VStr "start2end")) by reflexivity.
  assert (H2 : resolve_task ps pe cur task
               = ([], Return (make_row (VStr "B") ps pe, cur)))
    by (vm_compute; reflexivity).
  split; [exact H1|]. split; [exact H2|].
  exact (proj1 span_to_end_keeps_cursor ps pe cur task [] _ cur H1 H2).
Defined.

(** C3 does not hold as stated: the next task without a fixed start need
    not begin where the cursor stood.  In A (2 weeks), B (span to end),
    C (span to end), the cursor stands at 2026-01-15 before B and after it,
    but C, a span-to-end task itself, begins at the project start,
    2026-01-01. *)
Lemma span_after_span_starts_at_project_start :
  (exists a b c,
      calculate_schedule two_overlays_config
      = ([], Return ([a; b; c], date 2026 1 1, date 2026 6 30))
      /\ End_ a = date 2026 1 15
      /\ Start c = date 2026 1 1
      /\ Start c <> End_ a)
  /\ tasks two_overlays_config !! 2%nat
     = Some (make_task (VStr "C") (VStr "start2end") None)
  /\ truthy (manual_start (make_task (VStr "C") (VStr "start2end") None)) = false
  /\ ~ (forall ps pe cur data span task rest out rows,
          span !! "duration_weeks" = Some (VStr "start2end") ->
          truthy (manual_start task) = false ->
          for_tasks ps pe cur data (span :: task :: rest) = (out, Return rows) ->
          exists b c,
            rows !! length data = Some b /\ rows !! S (length data) = Some c /\
            Start c = cur).
Proof.
  split; [|split; [reflexivity|split; [reflexivity|]]].
  - exists (make_row (VStr "A") (date 2026 1 1) (date 2026 1 15)),
           (make_row (VStr "B") (date 2026 1 1) (date 2026 6 30)),
           (make_row (VStr "C") (date 2026 1 1) (date 2026 6 30)).
    split; [vm_compute; reflexivity|].
    split; [reflexivity|]. split; [reflexivity|]. vm_compute. discriminate.
  - intros H.
    destruct (H (date 2026 1 1) (date 2026 6 30) (date 2026 1 15) []
                (make_task (VStr "B") (VStr "start2end") None)
                (make_task (VStr "C") (VStr "start2end") None) [] []
                [make_row (VStr "B") (date 2026 1 1) (date 2026 6 30);
                 make_row (VStr "C") (date 2026 1 1) (date 2026 6 30)])
      as (b & c & _ & Hc & Hstart);
      [reflexivity|reflexivity|vm_compute; reflexivity|].
    simpl in Hc. injection Hc as <-. vm_compute in Hstart. discriminate.
Qed.

(** *** Fixed starts and sequential tasks *)

Lemma datetime_add_Return d t e :
  datetime_add d t = ret e ->
  e = d + t /\ 0 < toordinal e <= _MAXORDINAL.
Proof.
  unfold datetime_add.
  destruct (0 <? toordinal (d + t)) eqn:H1; [|discriminate].
  destruct (toordinal (d + t) <=? _MAXORDINAL) eqn:H2; [|discriminate].
  simpl. intros [= <-]. lia.
Qed.

(** C4: a task with a fixed start date starts on that date whatever the
    cursor is (the iteration gives the same row from every cursor); when its
    duration is numeric the cursor for the next task becomes the end of the
    task, the fixed start plus the duration, and not the previous cursor. *)
Theorem fixed_start_overrides_cursor ps pe cur task out r next :
  truthy (manual_start task) = true ->
  resolve_task ps pe cur task = (out, Return (r, next)) ->
  parse_date (manual_start task) = ret (Start r)
  /\ (forall cur',
        resolve_task ps pe cur' task
        = ret (r, if eq_str (get task "duration_weeks") "start2end"
                  then cur' else next))
  /\ (eq_str (get task "duration_weeks") "start2end" = false ->
      next = End_ r
      /\ exists weeks delta,
           float (get task "duration_weeks") = ret weeks
           /\ timedelta_weeks weeks = ret delta
           /\ End_ r = Start r + delta).
Proof.
  intros Hm Hr.
  apply resolve_task_Return in Hr as (-> & name & d & Hn & Hd & Hrow & H).
  unfold get. rewrite Hd. rewrite Hm in H.
  destruct (eq_str d "start2end") eqn:Hs.
  - destruct H as (He & -> & Hp). split; [exact Hp|]. split; [|discriminate].
    intros cur'. apply resolved_resolve_task. exists name, d.
    rewrite Hs, Hm. auto 10.
  - destruct H as (Hp & -> & weeks & delta & Hf & Ht & Ha).
    split; [exact Hp|]. split.
    + intros cur'. apply resolved_resolve_task. exists name, d.
      rewrite Hs, Hm. eauto 10.
    + intros _. split; [reflexivity|]. exists weeks, delta.
      apply datetime_add_Return in Ha as [Ha _]. auto.
Qed.

Lemma fixed_start_overrides_cursor_witness :
  let r := make_row (VStr "Review") (date 2026 3 1) (date 2026 3 15) in
  (truthy (manual_start fixed_task) = true
   /\ resolve_task (date 2026 1 1) (date 2026 6 30) (date 2026 1 15) fixed_task
      = ([], Return (r, date 2026 3 15)))
  /\ parse_date (manual_start fixed_task) = ret (Start r)
  /\ resolve_task (date 2026 1 1) (date 2026 6 30) (date 2026 5 5) fixed_task
     = ret (r, date 2026 3 15).
Proof.
  intros r.
  assert (H1 : truthy (manual_start fixed_task) = true) by reflexivity.
  assert (H2 : resolve_task (date 2026 1 1) (date 2026 6 30) (date 2026 1 15)
                 fixed_task = ([], Return (r, date 2026 3 15)))
    by (vm_compute; reflexivity).
  split; [auto|].
  destruct (fixed_start_overrides_cursor _ _ _ _ _ _ _ H1 H2) as (Ha & Hb & _).
  split; [exact Ha|]. exact (Hb (date 2026 5 5)).
Defined.

(** Rows of consecutive tasks without fixed start and with numeric
    durations: the first starts at the cursor, each next one where the
    previous one ends. *)
Lemma steps_contiguous ps pe cur tasks rows final :
  steps ps pe cur tasks rows final ->
  Forall (fun task =>
            truthy (manual_start task) = false
            /\ eq_str (get task "duration_weeks") "start2end" = false) tasks ->
  (forall r, rows !! 0%nat = Some r -> Start r = cur)
  /\ (forall i a b, rows !! i = Some a -> rows !! S i = Some b ->
                    End_ a = Start b).
Proof.
  induction 1 as [cur|cur task r next rest rows final Hr _ IH]; intros Hall.
  - split; intros; discriminate.
  - inversion Hall as [|? ? [Hm Hnum] Hrest]; subst.
    destruct (IH Hrest) as [IHhead IHadj].
    apply resolve_task_Return in Hr as (_ & name & d & _ & Hd & _ & H).
    unfold get in Hnum. rewrite Hd in Hnum. rewrite Hnum, Hm in H.
    destruct H as (Hstart & -> & _).
    split.
    + intros r' [= <-]. exact Hstart.
    + intros [|i] a b Ha Hb; simpl in Ha, Hb.
      * injection Ha as <-. symmetry. apply IHhead. exact Hb.
      * eapply IHadj; eassumption.
Qed.

(** C5: when every task has a numeric duration and none has a fixed start,
    the first resolved task starts at the project start and every resolved
    task ends exactly where the next one starts. *)
Theorem sequential_tasks_are_contiguous config out rows ps pe :
  calculate_schedule config = (out, Return (rows, ps, pe)) ->
  Forall (fun task =>
            truthy (manual_start task) = false
            /\ eq_str (get task "duration_weeks") "start2end" = false)
         (tasks config) ->
  (forall r, rows !! 0%nat = Some r -> Start r = ps)
  /\ (forall i a b, rows !! i = Some a -> rows !! S i = Some b ->
                    End_ a = Start b).
Proof.
  intros Hrun Hall.
  apply calculate_schedule_Return in Hrun
    as (sv & ev & final & _ & _ & _ & _ & _ & Hsteps).
  eapply steps_contiguous; eassumption.
Qed.

Lemma sequential_tasks_are_contiguous_witness :
  let a := make_row (VStr "A") (date 2026 1 1) (date 2026 1 15) in
  let b := make_row (VStr "B") (date 2026 1 15) (date 2026 1 18 + us_per_day / 2) in
  let c := make_row (VStr "C") (date 2026 1 18 + us_per_day / 2)
             (date 2026 2 8 + us_per_day / 2) in
  calculate_schedule sequential_config
  = ([], Return ([a; b; c], date 2026 1 1, date 2026 6 30))
  /\ Start a = date 2026 1 1 /\ End_ a = Start b /\ End_ b = Start c.
Proof.
  intros a b c.
  assert (Hrun : calculate_schedule sequential_config
                 = ([], Return ([a; b; c], date 2026 1 1, date 2026 6 30)))
    by (vm_compute; reflexivity).
  assert (Hall : Forall (fun task =>
                     truthy (manual_start task) = false
                     /\ eq_str (get task "duration_weeks") "start2end" = false)
                   (tasks sequential_config))
    by (repeat constructor).
  destruct (sequential_tasks_are_contiguous _ _ _ _ _ Hrun Hall) as [Hh Hadj].
  split; [exact Hrun|]. split; [exact (Hh a eq_refl)|].
  split; [exact (Hadj 0%nat a b eq_refl eq_refl)
         |exact (Hadj 1%nat b c eq_refl eq_refl)].
Defined.

(** *** One row per task *)

Lemma steps_names ps pe cur tasks rows final :
  steps ps pe cur tasks rows final ->
  map (fun r => Some (Task r)) rows = map (fun task => task !! "name") tasks.
Proof.
  induction 1 as [cur|cur task r next rest rows final Hr _ IH]; [reflexivity|].
  apply resolve_task_Return in Hr as (_ & name & d & Hn & _ & Hrow & _).
  simpl. rewrite IH, Hn, Hrow. reflexivity.
Qed.

(** C9: a run that returns yields one row per task descriptor, in the order
    of the descriptors, each row carrying the name of its descriptor. *)
Theorem rows_follow_tasks config out rows ps pe :
  calculate_schedule config = (out, Return (rows, ps, pe)) ->
  length rows = length (tasks config)
  /\ map (fun r => Some (Task r)) rows
     = map (fun task => task !! "name") (tasks config).
Proof.
  intros Hrun.
  apply calculate_schedule_Return in Hrun
    as (sv & ev & final & _ & _ & _ & _ & _ & Hsteps).
  split; [eapply steps_length|eapply steps_names]; eassumption.
Qed.

Lemma rows_follow_tasks_witness :
  exists rows,
    calculate_schedule example_config
    = ([], Return (rows, date 2026 2 1, date 2026 4 1))
    /\ length rows = 3%nat
    /\ map (fun r => Some (Task r)) rows
       = [Some (VStr "Lit Review"); Some (VStr "Pilot"); Some (VStr "Writeup")].
Proof.
  eexists.
  assert (Hrun : calculate_schedule example_config
                 = ([], Return ([ make_row (VStr "Lit Review") (date 2026 2 1) (date 2026 2 22);
                                  make_row (VStr "Pilot") (date 2026 2 1) (date 2026 4 1);
                                  make_row (VStr "Writeup") (date 2026 2 22) (date 2026 3 8) ],
                                date 2026 2 1, date 2026 4 1)))
    by (vm_compute; reflexivity).
  split; [exact Hrun|].
  exact (rows_follow_tasks _ _ _ _ _ Hrun).
Defined.

(** *** Floats: rounding never yields a NaN *)

Lemma shr_1_nonneg mrs : 0 <= shr_m mrs -> 0 <= shr_m (shr_1 mrs).
Proof.
  destruct mrs as [m r s]. simpl.
  destruct m as [|p|p]; [simpl; lia|destruct p; simpl; lia|lia].
Qed.

Lemma iter_pos_shr_1_nonneg p : forall mrs,
  0 <= shr_m mrs -> 0 <= shr_m (SpecFloat.iter_pos shr_1 p mrs).
Proof.
  induction p as [p IH|p IH|]; intros mrs H; simpl.
  - apply IH, IH, shr_1_nonneg, H.
  - apply IH, IH, H.
  - apply shr_1_nonneg, H.
Qed.

Lemma shr_fexp_nonneg m e l :
  0 <= m -> 0 <= shr_m (shr_fexp prec emax m e l).1.
Proof.
  intros H. unfold shr_fexp, shr.
  assert (H0 : 0 <= shr_m (shr_record_of_loc m l))
    by (destruct l as [|[]]; simpl; exact H).
  destruct (fexp prec emax (Zdigits2 m + e) - e); simpl; try exact H0.
  apply iter_pos_shr_1_nonneg, H0.
Qed.

Lemma round_nearest_even_nonneg m l : 0 <= m -> 0 <= round_nearest_even m l.
Proof. intros H. destruct l as [|[]]; simpl; try lia. destruct (Z.even m); lia. Qed.

Lemma binary_round_aux_not_nan sx mx ex lx :
  0 <= mx -> binary_round_aux prec emax sx mx ex lx <> S754_nan.
Proof.
  intros H. unfold binary_round_aux.
  pose proof (shr_fexp_nonneg mx ex lx H) as H1.
  destruct (shr_fexp prec emax mx ex lx) as [mrs' e']. simpl in H1.
  pose proof (shr_fexp_nonneg _ e' loc_Exact
                (round_nearest_even_nonneg _ (loc_of_shr_record mrs') H1)) as H2.
  destruct (shr_fexp prec emax _ e' loc_Exact) as [mrs'' e'']. simpl in H2.
  destruct (shr_m mrs''); [discriminate| |lia].
  destruct (e'' <=? emax - prec); discriminate.
Qed.

Lemma binary_normalize_not_nan m e s :
  binary_normalize prec emax m e s <> S754_nan.
Proof.
  unfold binary_normalize, binary_round. destruct m; [discriminate|..];
    destruct (shl_align _ _ _); apply binary_round_aux_not_nan; lia.
Qed.

Lemma float_of_Z_not_nan n : float_of_Z n <> S754_nan.
Proof. apply binary_normalize_not_nan. Qed.

Lemma SFmul_not_nan x y :
  x <> S754_nan -> y <> S754_nan -> is_zero x = false -> is_zero y = false ->
  (forall s, x <> S754_infinity s) ->
  SFmul prec emax x y <> S754_nan.
Proof.
  intros Hx Hy Zx Zy Ix.
  destruct x as [sx|sx| |sx mx ex]; simpl in *;
    [discriminate|exfalso; exact (Ix sx eq_refl)|congruence|].
  destruct y as [sy|sy| |sy my ey]; simpl in *;
    [discriminate|discriminate|congruence|].
  apply binary_round_aux_not_nan. lia.
Qed.

Lemma modf_not_nan x :
  x <> S754_nan -> (modf x).1 <> S754_nan /\ (modf x).2 <> S754_nan.
Proof.
  intros Hx. destruct x as [s|s| |s m e]; simpl;
    [split; discriminate|split; discriminate|by destruct Hx|].
  destruct (0 <=? e); simpl; [split; discriminate|].
  split; apply binary_normalize_not_nan.
Qed.

Lemma long_from_double_ValueError x :
  long_from_double x = raise ValueError <-> x = S754_nan.
Proof. destruct x; simpl; unfold ret, raise; split; congruence. Qed.

(** *** How [float] and [timedelta] can fail *)

Lemma bind_raise {A B} e (k : A -> M B) : raise e ≫= k = raise e.
Proof. reflexivity. Qed.

Lemma long_from_double_cases x :
  x <> S754_nan ->
  (exists n, long_from_double x = ret n)
  \/ long_from_double x = raise OverflowError.
Proof. destruct x; simpl; intros H; eauto. by destruct H. Qed.

Lemma accum_weeks_cases w :
  w <> S754_nan ->
  (exists x l, accum 0 w us_per_week = ret (x, l))
  \/ accum 0 w us_per_week = raise OverflowError.
Proof.
  intros Hw. unfold accum.
  destruct (modf_not_nan w Hw) as [Hf Hi].
  destruct (modf w) as [fracpart intpart]. simpl in Hf, Hi.
  destruct (long_from_double_cases intpart Hi) as [[n ->]| ->];
    [rewrite bind_ret_l|right; reflexivity].
  destruct (is_zero fracpart) eqn:Hz; [left; eauto|].
  assert (Hd : SFmul prec emax (float_of_Z us_per_week) fracpart <> S754_nan).
  { remember (float_of_Z us_per_week) as F eqn:HF. vm_compute in HF. subst F.
    apply SFmul_not_nan; try assumption; try discriminate; reflexivity. }
  destruct (modf_not_nan _ Hd) as [_ Hi2].
  destruct (modf (SFmul prec emax (float_of_Z us_per_week) fracpart))
    as [f2 i2]. simpl in Hi2.
  destruct (long_from_double_cases i2 Hi2) as [[n2 ->]| ->];
    [rewrite bind_ret_l; left; eauto|right; reflexivity].
Qed.

(** [timedelta(weeks=w)] raises [ValueError] for a NaN and for nothing
    else; any other failure is an [OverflowError]. *)
Lemma timedelta_weeks_cases w :
  (w = S754_nan /\ timedelta_weeks w = raise ValueError)
  \/ (w <> S754_nan
      /\ ((exists delta, timedelta_weeks w = ret delta)
          \/ timedelta_weeks w = raise OverflowError)).
Proof.
  destruct w as [s|s| |s m e]; [right|right|left; split; reflexivity|right];
    (split; [discriminate|]); unfold timedelta_weeks.
  all: match goal with
       | |- context [accum 0 ?w us_per_week] =>
           destruct (accum_weeks_cases w) as [(x & l & ->)| ->];
             [discriminate| |right; reflexivity]
       end.
  all: rewrite bind_ret_l; cbv zeta;
    match goal with
    | |- context [if ?c then ret ?v else _] => destruct c; eauto
    end.
Qed.


Lemma float_cases d :
  (exists w, float d = ret w) \/ float d = raise ValueError
  \/ float d = raise TypeError \/ float d = raise OverflowError.
Proof.
  destruct d; simpl; eauto.
  - destruct (float_of_Z n); eauto.
  - unfold float_from_string, float_from_ascii. repeat case_match; eauto.
Qed.

Lemma datetime_add_cases d t :
  (exists e, datetime_add d t = ret e) \/ datetime_add d t = raise OverflowError.
Proof. unfold datetime_add. case_match; eauto. Qed.

(** *** The numeric branch *)

Lemma resolve_task_numeric ps pe cur task name d :
  task !! "name" = Some name ->
  task !! "duration_weeks" = Some d ->
  eq_str d "start2end" = false ->
  resolve_task ps pe cur task =
    (if truthy (manual_start task) then parse_date (manual_start task)
     else ret cur) ≫= try_duration name d.
Proof.
  intros Hn Hd Hs. unfold resolve_task, getitem, manual_start.
  rewrite Hn, Hd, !bind_ret_l, Hs.
  set (m := if truthy (get task "start_date")
            then parse_date (get task "start_date") else ret cur).
  assert (Hm : m.1 = []).
  { subst m. destruct (truthy _); [apply parse_date_silent|reflexivity]. }
  clearbody m. unfold try_duration.
  destruct m as [o [start|e|c]]; simpl in Hm; subst o; try reflexivity.
  change ([], Return start) with (ret start). rewrite !bind_ret_l.
  silent_cases (float d) (float_silent d).
  destruct r as [weeks|e|c]; [|destruct e; reflexivity|reflexivity].
  change ([], Return weeks) with (ret weeks). rewrite !bind_ret_l.
  silent_cases (timedelta_weeks weeks) (timedelta_weeks_silent weeks).
  destruct r as [delta|e|c]; [|destruct e; reflexivity|reflexivity].
  change ([], Return delta) with (ret delta). rewrite !bind_ret_l.
  silent_cases (datetime_add start delta) (datetime_add_silent start delta).
  destruct r as [end_date|e|c]; [|destruct e; reflexivity|reflexivity].
  reflexivity.
Qed.

(** What the [try] block does, by what [float] and [timedelta] do. *)
Lemma try_duration_cases name d start :
  (exists weeks delta end_date,
      float d = ret weeks /\ timedelta_weeks weeks = ret delta
      /\ datetime_add start delta = ret end_date
      /\ try_duration name d start = ret (make_row name start end_date, end_date))
  \/ ((float d = raise ValueError \/ float d = ret S754_nan)
      /\ try_duration name d start = ([ErrInvalidDuration d name], SysExit 1))
  \/ (float d <> raise ValueError /\ float d <> ret S754_nan
      /\ exists e, try_duration name d start = raise e /\ e <> ValueError).
Proof.
  unfold try_duration.
  destruct (float_cases d) as [[w Hf]|[Hf|[Hf|Hf]]]; rewrite Hf.
  - rewrite bind_ret_l.
    destruct (timedelta_weeks_cases w) as [[-> Ht]|[Hw [[delta Ht]|Ht]]];
      rewrite Ht.
    + right; left. split; [right; reflexivity|reflexivity].
    + rewrite bind_ret_l.
      destruct (datetime_add_cases start delta) as [[e Ha]|Ha]; rewrite Ha.
      * left. exists w, delta, e. rewrite bind_ret_l. auto.
      * right; right. repeat split; try discriminate.
        -- intros [= ->]. by destruct Hw.
        -- exists OverflowError. split; [reflexivity|discriminate].
    + right; right. repeat split; try discriminate.
      * intros [= ->]. by destruct Hw.
      * exists OverflowError. split; [reflexivity|discriminate].
  - right; left. split; [left; reflexivity|reflexivity].
  - right; right. repeat split; try discriminate.
    exists TypeError. split; [reflexivity|discriminate].
  - right; right. repeat split; try discriminate.
    exists OverflowError. split; [reflexivity|discriminate].
Qed.

(** *** Invalid durations *)











(** *** Durations written as strings *)






(** *** Floats: integers below 2^53 are exact *)

Lemma digits2_pos_size p : digits2_pos p = Pos.size p.
Proof. induction p; simpl; congruence. Qed.

Lemma digits2_pos_bounds p :
  2 ^ (Zpos (digits2_pos p) - 1) <= Zpos p < 2 ^ Zpos (digits2_pos p).
Proof.
  rewrite digits2_pos_size. split.
  - pose proof (Pos.size_le p) as H.
    assert (H' : 2 ^ Zpos (Pos.size p) <= 2 * Zpos p).
    { rewrite <- Pos2Z.inj_pow. change (2 * Zpos p) with (Zpos p~0). lia. }
    replace (Zpos (Pos.size p)) with (Zpos (Pos.size p) - 1 + 1) in H' by lia.
    rewrite Z.pow_add_r in H' by lia. lia.
  - pose proof (Pos.size_gt p) as H. rewrite <- Pos2Z.inj_pow. lia.
Qed.

Lemma iter_xO_mul p k : Zpos (Pos.iter xO p k) = Zpos p * 2 ^ Zpos k.
Proof.
  induction k as [|k IH] using Pos.peano_ind.
  - simpl. lia.
  - rewrite Pos.iter_succ, Pos2Z.inj_xO, IH, Pos2Z.inj_succ, Z.pow_succ_r by lia.
    lia.
Qed.

Lemma iter_xO_digits p k :
  digits2_pos (Pos.iter xO p k) = (digits2_pos p + k)%positive.
Proof.
  induction k as [|k IH] using Pos.peano_ind.
  - simpl. lia.
  - rewrite Pos.iter_succ. simpl. rewrite IH. lia.
Qed.

(** A mantissa of exactly 53 bits in the normal range passes through the
    rounding unchanged. *)
Lemma binary_round_aux_exact s m e :
  Zpos (digits2_pos m) = prec -> -1074 <= e <= 971 ->
  binary_round_aux prec emax s (Zpos m) e loc_Exact = S754_finite s m e.
Proof.
  intros Hd He. unfold binary_round_aux, shr_fexp, shr_record_of_loc.
  assert (Hn : fexp prec emax (Zdigits2 (Zpos m) + e) - e = 0).
  { simpl Zdigits2. rewrite Hd. unfold fexp, SpecFloat.emin, prec, emax. lia. }
  rewrite Hn. simpl shr. cbn [round_nearest_even loc_of_shr_record shr_m].
  unfold shr_fexp, shr_record_of_loc. rewrite Hn. simpl shr. cbn [shr_m].
  replace (e <=? emax - prec) with true; [reflexivity|].
  symmetry. apply Z.leb_le. unfold emax, prec. lia.
Qed.

(** The float of a positive integer below 2^53: the integer shifted to 53
    bits. *)
Lemma binary_round_small s p :
  Zpos p < 2 ^ 53 ->
  exists m e,
    binary_round prec emax s p 0 = S754_finite s m e
    /\ -52 <= e <= 0 /\ Zpos m = Zpos p * 2 ^ (- e).
Proof.
  intros Hp. pose proof (digits2_pos_bounds p) as [Hlo Hhi].
  assert (Hd : Zpos (digits2_pos p) <= 53).
  { destruct (Z_le_gt_dec (Zpos (digits2_pos p)) 53) as [H|H]; [exact H|].
    exfalso. assert (2 ^ 53 <= 2 ^ (Zpos (digits2_pos p) - 1))
      by (apply Z.pow_le_mono_r; lia). lia. }
  unfold binary_round, shl_align.
  assert (Hf : fexp prec emax (Zpos (digits2_pos p) + 0) = Zpos (digits2_pos p) - 53).
  { unfold fexp, SpecFloat.emin, prec, emax. lia. }
  rewrite Hf.
  destruct (Zpos (digits2_pos p) - 53 - 0) as [|k|k] eqn:Hk; [|lia|].
  - exists p, 0. split; [|split; [lia|simpl; lia]].
    apply binary_round_aux_exact; [unfold prec|]; lia.
  - exists (Pos.iter xO p k), (Zpos (digits2_pos p) - 53).
    split; [|split; [lia|]].
    + apply binary_round_aux_exact; [|lia].
      rewrite iter_xO_digits. unfold prec. lia.
    + rewrite iter_xO_mul. f_equal. f_equal. lia.
Qed.

Lemma long_from_double_scaled s m e p :
  e <= 0 -> Zpos m = Zpos p * 2 ^ (- e) ->
  long_from_double (S754_finite s m e) = ret (cond_Zopp s (Zpos p)).
Proof.
  intros He Hm. simpl. do 2 f_equal.
  rewrite <- Z.shiftr_opp_r, Z.shiftr_div_pow2, Hm by lia.
  apply Z.div_mul. apply Z.pow_nonzero; lia.
Qed.

Lemma whole_weeks_binary_round s p :
  Zpos p < 2 ^ 53 ->
  whole_weeks (binary_round prec emax s p 0) (cond_Zopp s (Zpos p)).
Proof.
  intros Hp.
  destruct (binary_round_small s p Hp) as (m & e & Hr & He & Hm).
  unfold whole_weeks. rewrite Hr. unfold modf.
  destruct (0 <=? e) eqn:E.
  - apply Z.leb_le in E. simpl. split; [reflexivity|].
    apply long_from_double_scaled; [lia|exact Hm].
  - assert (Hq : Z.shiftr (Zpos m) (- e) = Zpos p).
    { rewrite Z.shiftr_div_pow2, Hm by lia.
      apply Z.div_mul. apply Z.pow_nonzero; lia. }
    rewrite Hq. simpl fst. simpl snd.
    rewrite Z.shiftl_mul_pow2, <- Hm, Z.sub_diag by lia.
    split; [destruct s; reflexivity|].
    replace (binary_normalize prec emax (cond_Zopp s (Zpos p)) 0 s)
      with (binary_round prec emax s p 0) by (destruct s; reflexivity).
    rewrite Hr. apply long_from_double_scaled; [lia|exact Hm].
Qed.

(** An integer of magnitude below 2^53, taken as a number of weeks, is a
    whole number of weeks. *)
Lemma float_of_Z_whole n :
  Z.abs n < 2 ^ 53 ->
  float (VInt n) = ret (float_of_Z n) /\ whole_weeks (float_of_Z n) n.
Proof.
  intros Hn. unfold float_of_Z.
  destruct n as [|p|p]; [split; [|split]; reflexivity|..].
  - pose proof (whole_weeks_binary_round false p ltac:(simpl in Hn; lia)) as Hw.
    destruct (binary_round_small false p) as (m & e & Hr & _); [simpl in Hn; lia|].
    simpl float. unfold float_of_Z. simpl binary_normalize in *.
    split; [rewrite Hr; reflexivity|exact Hw].
  - pose proof (whole_weeks_binary_round true p ltac:(simpl in Hn; lia)) as Hw.
    destruct (binary_round_small true p) as (m & e & Hr & _); [simpl in Hn; lia|].
    simpl float. unfold float_of_Z. simpl binary_normalize in *.
    split; [rewrite Hr; reflexivity|exact Hw].
Qed.

(** *** The end date of a numeric task *)

(** A whole number of weeks converts without rounding. *)
Lemma timedelta_weeks_whole w n delta :
  whole_weeks w n -> timedelta_weeks w = ret delta -> delta = n * us_per_week.
Proof.
  unfold whole_weeks, timedelta_weeks, accum.
  destruct (modf w) as [fracpart intpart]. simpl. intros [Hz Hi].
  rewrite Hi, bind_ret_l, Hz, bind_ret_l. cbn [is_zero].
  destruct (_ && _); [|discriminate]. intros [= <-]. lia.
Qed.

(** C7, as the code has it: the end of a numeric task is its start plus
    [timedelta(weeks=w)] for the float [w] of its duration, kept to the
    microsecond: for a whole number of weeks, and so for every integer
    duration below 2^53, that is exactly 7 days a week; a fraction of a day
    is kept in the end date and only [DurationDays] drops it, rounding
    towards minus infinity. *)
Theorem end_is_start_plus_timedelta ps pe cur task out r next :
  eq_str (get task "duration_weeks") "start2end" = false ->
  resolve_task ps pe cur task = (out, Return (r, next)) ->
  exists weeks delta,
    float (get task "duration_weeks") = ret weeks
    /\ timedelta_weeks weeks = ret delta
    /\ End_ r = Start r + delta
    /\ DurationDays r = delta / us_per_day
    /\ (forall n, whole_weeks weeks n -> delta = 7 * n * us_per_day)
    /\ (forall n, get task "duration_weeks" = VInt n -> Z.abs n < 2 ^ 53 ->
                  delta = 7 * n * us_per_day).
Proof.
  intros Hnum Hr.
  apply resolve_task_Return in Hr as (_ & name & d & _ & Hd & Hrow & H).
  unfold get in *. rewrite Hd in *. rewrite Hnum in H.
  destruct H as (_ & _ & weeks & delta & Hf & Ht & Ha).
  apply datetime_add_Return in Ha as [Ha _].
  assert (Hwhole : forall n, whole_weeks weeks n -> delta = 7 * n * us_per_day).
  { intros n Hw. rewrite (timedelta_weeks_whole weeks n delta Hw Ht).
    unfold us_per_week, us_per_day. lia. }
  exists weeks, delta. repeat split; try assumption.
  - rewrite Hrow. unfold make_row, days, datetime_sub. simpl.
    f_equal. lia.
  - intros n -> Hn. apply Hwhole.
    destruct (float_of_Z_whole n Hn) as [Hf' Hw].
    rewrite Hf' in Hf. injection Hf as <-. exact Hw.
Qed.

Lemma end_is_start_plus_timedelta_witness :
  let task := make_task (VStr "T") (VInt 3) None in
  let r := make_row (VStr "T") (date 2026 1 1) (date 2026 1 22) in
  (eq_str (get task "duration_weeks") "start2end" = false
   /\ resolve_task (date 2026 1 1) (date 2026 6 30) (date 2026 1 1) task
      = ([], Return (r, date 2026 1 22)))
  /\ exists weeks delta,
       float (VInt 3) = ret weeks /\ timedelta_weeks weeks = ret delta
       /\ End_ r = Start r + delta /\ delta = 7 * 3 * us_per_day.
Proof.
  intros task r.
  assert (H1 : eq_str (get task "duration_weeks") "start2end" = false)
    by reflexivity.
  assert (H2 : resolve_task (date 2026 1 1) (date 2026 6 30) (date 2026 1 1) task
               = ([], Return (r, date 2026 1 22)))
    by (vm_compute; reflexivity).
  split; [auto|].
  destruct (end_is_start_plus_timedelta _ _ _ _ _ _ _ H1 H2)
    as (weeks & delta & Hf & Ht & He & _ & _ & Hint).
  exists weeks, delta. repeat split; try assumption.
  apply Hint; [reflexivity|]. vm_compute. reflexivity.
Defined.

(** C7 does not hold as stated: for half a week the end date is three days
    and twelve hours after the start, not a whole number of days; the
    fraction of a day is dropped in [DurationDays] only. *)
Lemma half_week_ends_at_noon :
  exists r,
    resolve_duration (VFloat half_week) = ret (r, End_ r)
    /\ float (VStr "0.5") = ret half_week
    /\ End_ r - Start r = 3 * us_per_day + us_per_day / 2
    /\ (End_ r - Start r) mod us_per_day <> 0
    /\ (date_of (End_ r), time_of (End_ r)) = ((2026, 1, 4), 12 * 3600 * 1000000)
    /\ DurationDays r = 3.
Proof.
  exists (make_row (VStr "T") (date 2026 1 1) (date 2026 1 4 + us_per_day / 2)).
  repeat split; try (vm_compute; reflexivity).
  vm_compute. discriminate.
Qed.

(** ** Further properties of the resolver and of the chart window *)

Import Chart Calendar Direction.

(** *** Parsed dates *)

Lemma datetime_ymd_cases y m d :
  (exists dt, datetime_ymd y m d = ret dt) \/ datetime_ymd y m d = raise ValueError.
Proof. unfold datetime_ymd. case_match; eauto. Qed.

Lemma strptime_cases s :
  (exists dt, strptime s = ret dt) \/ strptime s = raise ValueError.
Proof.
  unfold strptime. repeat case_match; eauto using datetime_ymd_cases.
Qed.

Lemma parse_date_cases v :
  (exists dt, parse_date v = ret dt) \/ parse_date v = raise ValueError.
Proof. destruct v; simpl; eauto using strptime_cases. Qed.

Lemma _days_before_year_bounds y :
  1 <= y <= 9999 ->
  0 <= _days_before_year y <= 3651694 - 365 * (9999 - y).
Proof.
  intros Hy. unfold _days_before_year.
  Z.to_euclidean_division_equations. lia.
Qed.

Lemma _days_before_month_bounds y m d :
  1 <= m <= 12 -> 1 <= d <= _days_in_month y m ->
  1 <= _days_before_month y m + d <= 365 + (if _is_leap y then 1 else 0).
Proof.
  intros Hm Hd. unfold _days_before_month, _days_in_month in *.
  destruct (_is_leap y);
    assert (Hc : m = 1 \/ m = 2 \/ m = 3 \/ m = 4 \/ m = 5 \/ m = 6 \/ m = 7
                 \/ m = 8 \/ m = 9 \/ m = 10 \/ m = 11 \/ m = 12) by lia;
    repeat (destruct Hc as [->|Hc]; [simpl in *; lia|]); subst; simpl in *; lia.
Qed.

Lemma _is_leap_next y :
  1 <= y ->
  _days_before_year (y + 1)
  = _days_before_year y + 365 + (if _is_leap y then 1 else 0).
Proof.
  intros Hy. unfold _days_before_year, _is_leap.
  replace (y + 1 - 1) with y by lia.
  destruct (Z.eqb_spec (y mod 4) 0) as [H4|H4];
    destruct (Z.eqb_spec (y mod 100) 0) as [H100|H100];
    destruct (Z.eqb_spec (y mod 400) 0) as [H400|H400]; simpl;
    Z.to_euclidean_division_equations; lia.
Qed.

(** A date that [datetime(year, month, day)] accepts is the midnight of an
    ordinal day between 1 and 3652059. *)
Lemma datetime_ymd_Return y m d dt :
  datetime_ymd y m d = ret dt ->
  dt = _ymd2ord y m d * us_per_day /\ 1 <= _ymd2ord y m d <= _MAXORDINAL.
Proof.
  unfold datetime_ymd.
  destruct (_ && _) eqn:H; [|discriminate]. intros [= <-].
  split; [reflexivity|].
  repeat (apply andb_true_iff in H as [H ?]).
  unfold MINYEAR, MAXYEAR in *.
  assert (Hy : 1 <= y <= 9999) by lia.
  assert (Hm : 1 <= m <= 12) by lia.
  assert (Hd : 1 <= d <= _days_in_month y m) by lia.
  pose proof (_days_before_year_bounds y Hy) as Hb.
  pose proof (_days_before_month_bounds y m d Hm Hd) as Hbm.
  unfold _ymd2ord, _MAXORDINAL.
  destruct (Z.eq_dec y 9999) as [->|Hne].
  - change (_is_leap 9999) with false in Hbm. lia.
  - destruct (_is_leap y); lia.
Qed.

Lemma strptime_Return s dt :
  strptime s = ret dt ->
  exists n, dt = n * us_per_day /\ 1 <= n <= _MAXORDINAL.
Proof.
  unfold strptime. repeat case_match; try discriminate.
  intros Hdt. apply datetime_ymd_Return in Hdt as [-> Hn]. eauto.
Qed.

Lemma parse_date_Return v dt :
  parse_date v = ret dt ->
  exists n, dt = n * us_per_day /\ 1 <= n <= _MAXORDINAL.
Proof. destruct v; simpl; try discriminate; apply strptime_Return. Qed.

Lemma toordinal_midnight n : toordinal (n * us_per_day) = n.
Proof. unfold toordinal. apply Z.div_mul. discriminate. Qed.

(** X1: every date that [parse_date] returns is the midnight (time of day
    0) of a day between 0001-01-01 and 9999-12-31. *)
Theorem parse_date_midnight v dt :
  parse_date v = ret dt ->
  time_of dt = 0 /\ 1 <= toordinal dt <= _MAXORDINAL
  /\ dt = toordinal dt * us_per_day.
Proof.
  intros H. apply parse_date_Return in H as (n & -> & Hn).
  rewrite toordinal_midnight. unfold time_of.
  rewrite Z.mod_mul by discriminate. auto.
Qed.

Lemma parse_date_midnight_witness :
  parse_date (VStr "2026-02-01") = ret (date 2026 2 1)
  /\ time_of (date 2026 2 1) = 0
  /\ 1 <= toordinal (date 2026 2 1) <= _MAXORDINAL
  /\ date 2026 2 1 = toordinal (date 2026 2 1) * us_per_day.
Proof.
  assert (H : parse_date (VStr "2026-02-01") = ret (date 2026 2 1))
    by (vm_compute; reflexivity).
  split; [exact H|]. exact (parse_date_midnight _ _ H).
Defined.

(** *** The advisory *)

(** X2: a run that returns has printed nothing when the project ends at most
    450 days after it starts, and exactly the two advisory lines, with the
    number of days, when it ends later. *)
Theorem advisory_threshold config out rows ps pe :
  calculate_schedule config = (out, Return (rows, ps, pe)) ->
  (toordinal pe - toordinal ps <= 450 -> out = [])
  /\ (450 < toordinal pe - toordinal ps ->
      out = [WarnDuration (toordinal pe - toordinal ps); WarnCrowded]).
Proof.
  intros H.
  apply calculate_schedule_Return in H
    as (sv & ev & final & _ & Hps & _ & Hpe & -> & _).
  apply parse_date_Return in Hps as (ns & -> & _).
  apply parse_date_Return in Hpe as (ne & -> & _).
  rewrite !toordinal_midnight. unfold warning_lines, days, datetime_sub.
  replace (ne * us_per_day - ns * us_per_day) with ((ne - ns) * us_per_day) by lia.
  rewrite Z.div_mul by discriminate.
  split; intros Hd.
  - replace (450 <? ne - ns) with false; [reflexivity|].
    symmetry. apply Z.ltb_ge. lia.
  - replace (450 <? ne - ns) with true; [reflexivity|].
    symmetry. apply Z.ltb_lt. lia.
Qed.

Lemma advisory_threshold_witness :
  let config := {| project := make_project (VStr "2026-01-01") (VStr "2027-03-28");
                   tasks := [] |} in
  let out := [WarnDuration 451; WarnCrowded] in
  calculate_schedule config = (out, Return ([], date 2026 1 1, date 2027 3 28))
  /\ (450 < toordinal (date 2027 3 28) - toordinal (date 2026 1 1) ->
      out = [WarnDuration (toordinal (date 2027 3 28) - toordinal (date 2026 1 1));
             WarnCrowded]).
Proof.
  intros config out.
  assert (H1 : calculate_schedule config
               = (out, Return ([], date 2026 1 1, date 2027 3 28)))
    by (vm_compute; reflexivity).
  split; [exact H1|].
  exact (proj2 (advisory_threshold _ _ _ _ _ H1)).
Defined.
(** *** How one iteration can end *)

(** The paths through one iteration: a missing key; a fixed start that does
    not parse; a span to the end; a numeric duration. *)
Lemma resolve_task_cases ps pe cur task :
  ((task !! "name" = None \/ task !! "duration_weeks" = None)
   /\ resolve_task ps pe cur task = raise KeyError)
  \/ exists name d,
       task !! "name" = Some name /\ task !! "duration_weeks" = Some d
       /\ ((truthy (manual_start task) = true
            /\ parse_date (manual_start task) = raise ValueError
            /\ resolve_task ps pe cur task = raise ValueError)
           \/ exists start,
                (if truthy (manual_start task)
                 then parse_date (manual_start task) else ret cur) = ret start
                /\ ((eq_str d "start2end" = true
                     /\ resolve_task ps pe cur task
                        = ret (make_row name
                                 (if truthy (manual_start task) then start else ps)
                                 pe, cur))
                    \/ (eq_str d "start2end" = false
                        /\ resolve_task ps pe cur task = try_duration name d start))).
Proof.
  destruct (task !! "name") as [name|] eqn:Hn.
  2:{ left. split; [auto|]. unfold resolve_task, getitem. rewrite Hn. reflexivity. }
  destruct (task !! "duration_weeks") as [d|] eqn:Hd.
  2:{ left. split; [auto|]. unfold resolve_task, getitem. rewrite Hn, Hd. reflexivity. }
  right. exists name, d. split; [reflexivity|]. split; [reflexivity|].
  destruct (truthy (manual_start task)) eqn:Hm.
  - destruct (parse_date_cases (manual_start task)) as [[start Hp]|Hp].
    + right. exists start. split; [exact Hp|].
      destruct (eq_str d "start2end") eqn:Hs; [left|right]; split; try reflexivity.
      * apply resolved_resolve_task. exists name, d. rewrite Hs, Hm. simpl. auto 10.
      * rewrite (resolve_task_numeric ps pe cur task name d Hn Hd Hs), Hm, Hp.
        apply bind_ret_l.
    + left. split; [reflexivity|]. split; [exact Hp|].
      destruct (eq_str d "start2end") eqn:Hs.
      * unfold resolve_task, getitem. fold (manual_start task).
        rewrite Hn, Hd, !bind_ret_l, Hm, Hp. reflexivity.
      * rewrite (resolve_task_numeric ps pe cur task name d Hn Hd Hs), Hm, Hp.
        reflexivity.
  - right. exists cur. split; [reflexivity|].
    destruct (eq_str d "start2end") eqn:Hs; [left|right]; split; try reflexivity.
    + apply resolved_resolve_task. exists name, d. rewrite Hs, Hm. simpl. auto 10.
    + rewrite (resolve_task_numeric ps pe cur task name d Hn Hd Hs), Hm.
      apply bind_ret_l.
Qed.

(** The uncaught exceptions of the [try] block: a [TypeError] from [float],
    or an [OverflowError] from [float], [timedelta] or the addition. *)
Lemma try_duration_Raise name d start e :
  try_duration name d start = raise e ->
  (e = TypeError /\ float d = raise TypeError)
  \/ (e = OverflowError
      /\ (float d = raise OverflowError
          \/ exists w, float d = ret w
               /\ (timedelta_weeks w = raise OverflowError
                   \/ exists delta, timedelta_weeks w = ret delta
                        /\ datetime_add start delta = raise OverflowError))).
Proof.
  unfold try_duration.
  destruct (float_cases d) as [[w Hf]|[Hf|[Hf|Hf]]]; rewrite Hf.
  - rewrite bind_ret_l.
    destruct (timedelta_weeks_cases w) as [[-> Ht]|[Hw [[delta Ht]|Ht]]];
      rewrite Ht.
    + discriminate.
    + rewrite bind_ret_l.
      destruct (datetime_add_cases start delta) as [[e' Ha]|Ha]; rewrite Ha.
      * discriminate.
      * intros [= <-]. right. split; [reflexivity|]. right. exists w.
        split; [reflexivity|]. right. exists delta. auto.
    + intros [= <-]. right. split; [reflexivity|]. right. exists w. auto.
  - discriminate.
  - intros [= <-]. left. auto.
  - intros [= <-]. right. auto.
Qed.

Lemma try_duration_outcomes name d start :
  (exists x, try_duration name d start = ret x)
  \/ try_duration name d start = ([ErrInvalidDuration d name], SysExit 1)
  \/ exists e, try_duration name d start = raise e.
Proof.
  destruct (try_duration_cases name d start)
    as [(w & delta & e & _ & _ & _ & H)|[[_ H]|(_ & _ & ex & H & _)]]; eauto.
Qed.

(** X3: one iteration prints nothing unless it ends the run, which it does
    only with exit status 1 and after exactly one line, the invalid duration
    line with the name and the duration of its own task. *)
Theorem iteration_prints_only_on_exit ps pe cur task :
  match resolve_task ps pe cur task with
  | (out, Return _) | (out, Raise _) => out = []
  | (out, SysExit code) =>
      code = 1
      /\ exists name d,
           task !! "name" = Some name /\ task !! "duration_weeks" = Some d
           /\ eq_str d "start2end" = false
           /\ out = [ErrInvalidDuration d name]
  end.
Proof.
  destruct (resolve_task_cases ps pe cur task)
    as [[_ ->]|(name & d & Hn & Hd & [(_ & _ & ->)|(start & _ & [[_ ->]|[Hs ->]])])];
    try reflexivity.
  destruct (try_duration_outcomes name d start) as [[x ->]|[->|[e ->]]];
    try reflexivity.
  split; [reflexivity|]. exists name, d. auto.
Qed.

(** X4: an iteration raises [KeyError] exactly when the task has no "name"
    or no "duration_weeks" entry; an absent "start_date" is not an error. *)
Theorem key_error_iff_missing_key ps pe cur task :
  resolve_task ps pe cur task = raise KeyError
  <-> task !! "name" = None \/ task !! "duration_weeks" = None.
Proof.
  destruct (resolve_task_cases ps pe cur task)
    as [[Hk ->]|(name & d & Hn & Hd & H)]; [tauto|].
  rewrite Hn, Hd. split; [|intros [[=]|[=]]].
  destruct H as [(_ & _ & ->)|(start & _ & [[_ ->]|[Hs ->]])]; try discriminate.
  intros H. apply try_duration_Raise in H as [[[=] _]|[[=] _]].
Qed.


Lemma float_TypeError d :
  float d = raise TypeError <-> string_or_number d = false.
Proof.
  destruct d; simpl; unfold ret, raise; split; try congruence.
  - destruct (float_of_Z n); discriminate.
  - unfold float_from_string, float_from_ascii. repeat case_match; discriminate.
Qed.

(** X6: an iteration raises [TypeError] exactly when the keys are there, the
    start date is settled, and the duration is neither the sentinel nor a
    string or a number: a null, a date, a sequence or a mapping. *)
Theorem type_error_iff_duration_type ps pe cur task :
  resolve_task ps pe cur task = raise TypeError
  <-> exists d,
        is_Some (task !! "name") /\ task !! "duration_weeks" = Some d
        /\ string_or_number d = false
        /\ (truthy (manual_start task) = true ->
            exists start, parse_date (manual_start task) = ret start).
Proof.
  destruct (resolve_task_cases ps pe cur task)
    as [[Hk ->]|(name & d & Hn & Hd & H)].
  - split; [discriminate|]. intros (d & [? H1] & H2 & _).
    destruct Hk; congruence.
  - destruct H as [(Hm & Hp & ->)|(start & Hstart & H)].
    + split; [discriminate|]. intros (d' & _ & _ & _ & Hs).
      destruct (Hs Hm) as [s Hs']. rewrite Hp in Hs'. discriminate.
    + assert (Hstart' : truthy (manual_start task) = true ->
                        exists start, parse_date (manual_start task) = ret start).
      { intros Hm. rewrite Hm in Hstart. eauto. }
      destruct H as [[Hs ->]|[Hs ->]].
      * split; [discriminate|]. intros (d' & _ & Hd' & Hty & _).
        rewrite Hd in Hd'. injection Hd' as <-.
        apply eq_str_spec in Hs. subst d. discriminate.
      * split.
        -- intros H. apply try_duration_Raise in H as [[_ Hf]|[[=] _]].
           exists d. rewrite Hn. apply float_TypeError in Hf. eauto.
        -- intros (d' & _ & Hd' & Hty & _).
           rewrite Hd in Hd'. injection Hd' as <-.
           apply float_TypeError in Hty. unfold try_duration. rewrite Hty.
           reflexivity.
Qed.
(** *** Anchored spans *)

(** X7: a "start2end" task with a fixed start resolves to (that date,
    project end) and leaves the cursor alone; its [DurationDays] is the
    number of days from the fixed date to the project end, negative when the
    fixed date is after the end of the project. *)
Theorem anchored_span ps pe cur task name start :
  task !! "name" = Some name ->
  task !! "duration_weeks" = Some (VStr "start2end") ->
  truthy (manual_start task) = true ->
  parse_date (manual_start task) = ret start ->
  resolve_task ps pe cur task = ret (make_row name start pe, cur)
  /\ DurationDays (make_row name start pe) = (pe - start) / us_per_day
  /\ (pe < start -> DurationDays (make_row name start pe) < 0).
Proof.
  intros Hn Hd Hm Hp. split; [|split].
  - apply resolved_resolve_task. exists name, (VStr "start2end").
    simpl. rewrite Hm. auto 10.
  - reflexivity.
  - intros Hlt. simpl. unfold days, datetime_sub.
    apply Z.div_lt_upper_bound; [reflexivity|]. lia.
Qed.

Lemma anchored_span_witness :
  let task := make_task (VStr "Late") (VStr "start2end") (Some (VStr "2026-07-10")) in
  (task !! "name" = Some (VStr "Late")
   /\ task !! "duration_weeks" = Some (VStr "start2end")
   /\ truthy (manual_start task) = true
   /\ parse_date (manual_start task) = ret (date 2026 7 10))
  /\ resolve_task (date 2026 1 1) (date 2026 6 30) (date 2026 3 1) task
     = ret (make_row (VStr "Late") (date 2026 7 10) (date 2026 6 30), date 2026 3 1)
  /\ DurationDays (make_row (VStr "Late") (date 2026 7 10) (date 2026 6 30)) = -10.
Proof.
  intros task.
  assert (H1 : task !! "name" = Some (VStr "Late")) by reflexivity.
  assert (H2 : task !! "duration_weeks" = Some (VStr "start2end")) by reflexivity.
  assert (H3 : truthy (manual_start task) = true) by reflexivity.
  assert (H4 : parse_date (manual_start task) = ret (date 2026 7 10))
    by (vm_compute; reflexivity).
  split; [auto|].
  split; [|vm_compute; reflexivity].
  exact (proj1 (anchored_span (date 2026 1 1) (date 2026 6 30) (date 2026 3 1)
                  task (VStr "Late") (date 2026 7 10) H1 H2 H3 H4)).
Defined.

(** *** Dates stay within the calendar *)


Lemma parse_date_in_calendar v dt : parse_date v = ret dt -> in_calendar dt.
Proof.
  intros H. apply parse_date_Return in H as (n & -> & Hn).
  unfold in_calendar. rewrite toordinal_midnight. exact Hn.
Qed.

Lemma resolved_in_calendar ps pe cur task r next :
  in_calendar ps -> in_calendar pe -> in_calendar cur ->
  resolved ps pe cur task r next ->
  in_calendar (Start r) /\ in_calendar (End_ r) /\ in_calendar next.
Proof.
  intros Hps Hpe Hcur (name & d & _ & _ & _ & H).
  assert (Hstart : forall other,
             in_calendar other ->
             (if truthy (manual_start task)
              then parse_date (manual_start task) = ret (Start r)
              else Start r = other) ->
             in_calendar (Start r)).
  { intros other Ho Hs. destruct (truthy (manual_start task)).
    - eapply parse_date_in_calendar. exact Hs.
    - rewrite Hs. exact Ho. }
  destruct (eq_str d "start2end").
  - destruct H as (-> & -> & H). eauto.
  - destruct H as (Hs & -> & w & delta & _ & _ & Ha).
    apply datetime_add_Return in Ha as [_ Ha].
    assert (in_calendar (End_ r)) by (unfold in_calendar; lia).
    eauto.
Qed.

Lemma steps_in_calendar ps pe cur tasks rows final :
  steps ps pe cur tasks rows final ->
  in_calendar ps -> in_calendar pe -> in_calendar cur ->
  Forall (fun r => in_calendar (Start r) /\ in_calendar (End_ r)) rows.
Proof.
  induction 1 as [cur|cur task r next rest rows final Hr _ IH];
    intros Hps Hpe Hcur; [constructor|].
  apply resolve_task_Return in Hr as [_ Hr].
  destruct (resolved_in_calendar _ _ _ _ _ _ Hps Hpe Hcur Hr) as (H1 & H2 & H3).
  constructor; [auto|]. apply IH; assumption.
Qed.

Lemma days_between_in_calendar a b :
  in_calendar a -> in_calendar b ->
  - 3652059 <= (b - a) / us_per_day <= 3652058.
Proof.
  unfold in_calendar, toordinal, _MAXORDINAL, us_per_day. intros Ha Hb.
  Z.to_euclidean_division_equations. lia.
Qed.

(** X8: every start and end date of a returned schedule, and both project
    dates, lie between 0001-01-01 and 9999-12-31, and every [DurationDays]
    is the whole number of days between start and end, rounded down, from
    -3652059 to 3652058. *)
Theorem schedule_within_calendar config out rows ps pe :
  calculate_schedule config = (out, Return (rows, ps, pe)) ->
  in_calendar ps /\ in_calendar pe
  /\ Forall (fun r =>
               in_calendar (Start r) /\ in_calendar (End_ r)
               /\ DurationDays r = (End_ r - Start r) / us_per_day
               /\ - 3652059 <= DurationDays r <= 3652058) rows.
Proof.
  intros H.
  apply calculate_schedule_Return in H
    as (sv & ev & final & _ & Hps & _ & Hpe & _ & Hsteps).
  apply parse_date_in_calendar in Hps, Hpe.
  split; [assumption|]. split; [assumption|].
  pose proof (steps_in_calendar _ _ _ _ _ _ Hsteps Hps Hpe Hps) as Hcal.
  assert (Hrow : Forall (fun r => DurationDays r = (End_ r - Start r) / us_per_day) rows).
  { clear Hcal. induction Hsteps as [|cur task r next rest rows final Hr _ IH];
      constructor; [|exact IH].
    apply resolve_task_Return in Hr as (_ & name & d & _ & _ & -> & _).
    reflexivity. }
  rewrite Forall_forall in *. intros r Hin.
  destruct (Hcal r Hin) as [H1 H2]. rewrite (Hrow r Hin).
  split; [exact H1|]. split; [exact H2|]. split; [reflexivity|].
  apply days_between_in_calendar; assumption.
Qed.

Lemma schedule_within_calendar_witness :
  exists rows,
    calculate_schedule example_config
    = ([], Return (rows, date 2026 2 1, date 2026 4 1))
    /\ in_calendar (date 2026 2 1) /\ length rows = 3%nat.
Proof.
  eexists.
  assert (Hrun : calculate_schedule example_config
                 = ([], Return ([ make_row (VStr "Lit Review") (date 2026 2 1) (date 2026 2 22);
                                  make_row (VStr "Pilot") (date 2026 2 1) (date 2026 4 1);
                                  make_row (VStr "Writeup") (date 2026 2 22) (date 2026 3 8) ],
                                date 2026 2 1, date 2026 4 1)))
    by (vm_compute; reflexivity).
  split; [exact Hrun|].
  split; [exact (proj1 (schedule_within_calendar _ _ _ _ _ Hrun))|reflexivity].
Defined.
(** *** How runs compose *)

Lemma steps_app ps pe cur l1 rows1 mid l2 rows2 final :
  steps ps pe cur l1 rows1 mid -> steps ps pe mid l2 rows2 final ->
  steps ps pe cur (l1 ++ l2) (rows1 ++ rows2) final.
Proof.
  induction 1 as [cur|cur task r next rest rows mid Hr _ IH]; intros H2; simpl.
  - exact H2.
  - econstructor; [exact Hr|]. apply IH, H2.
Qed.

Lemma steps_functional ps pe cur tasks rows final :
  steps ps pe cur tasks rows final ->
  forall rows' final', steps ps pe cur tasks rows' final' ->
  rows' = rows /\ final' = final.
Proof.
  induction 1 as [cur|cur task r next rest rows final Hr _ IH];
    intros rows' final' H'; inversion H' as [|? ? r' next' ? rows'' ? Hr' Hrest]; subst.
  - auto.
  - rewrite Hr in Hr'. injection Hr' as <- <-.
    destruct (IH _ _ Hrest) as [-> ->]. auto.
Qed.

Lemma calculate_schedule_steps config sv ev ps pe rows final :
  project config !! "start_date" = Some sv -> parse_date sv = ret ps ->
  project config !! "end_date" = Some ev -> parse_date ev = ret pe ->
  steps ps pe ps (tasks config) rows final ->
  calculate_schedule config = (warning_lines ps pe, Return (rows, ps, pe)).
Proof.
  intros Hsv Hps Hev Hpe Hsteps.
  rewrite (calculate_schedule_unfold config ps pe sv ev) by assumption.
  rewrite (steps_for_tasks _ _ _ _ _ _ [] Hsteps). simpl.
  rewrite app_nil_r. reflexivity.
Qed.

(** X9: the rows of the first tasks do not depend on the tasks after them:
    when a run over [l1 ++ l2] returns, the run over [l1] alone returns the
    first [length l1] rows, with the same printed lines. *)
Theorem earlier_rows_are_stable project0 l1 l2 out rows ps pe :
  calculate_schedule {| project := project0; tasks := l1 ++ l2 |}
  = (out, Return (rows, ps, pe)) ->
  calculate_schedule {| project := project0; tasks := l1 |}
  = (out, Return (take (length l1) rows, ps, pe)).
Proof.
  intros H.
  apply calculate_schedule_Return in H
    as (sv & ev & final & Hsv & Hps & Hev & Hpe & -> & Hsteps).
  simpl in *.
  apply steps_app_inv in Hsteps as (rows1 & rows2 & mid & -> & H1 & _).
  rewrite <- (steps_length _ _ _ _ _ _ H1), take_app_length.
  eapply calculate_schedule_steps; eassumption.
Qed.

Lemma earlier_rows_are_stable_witness :
  let a := make_task (VStr "Lit Review") (VInt 3) None in
  let b := make_task (VStr "Pilot") (VStr "start2end") None in
  let c := make_task (VStr "Writeup") (VInt 2) None in
  let project0 := make_project (VStr "2026-02-01") (VStr "2026-04-01") in
  let ra := make_row (VStr "Lit Review") (date 2026 2 1) (date 2026 2 22) in
  let rb := make_row (VStr "Pilot") (date 2026 2 1) (date 2026 4 1) in
  let rc := make_row (VStr "Writeup") (date 2026 2 22) (date 2026 3 8) in
  calculate_schedule {| project := project0; tasks := [a; b] ++ [c] |}
  = ([], Return ([ra; rb; rc], date 2026 2 1, date 2026 4 1))
  /\ calculate_schedule {| project := project0; tasks := [a; b] |}
     = ([], Return ([ra; rb], date 2026 2 1, date 2026 4 1)).
Proof.
  intros a b c project0 ra rb rc.
  assert (H : calculate_schedule {| project := project0; tasks := [a; b] ++ [c] |}
              = ([], Return ([ra; rb; rc], date 2026 2 1, date 2026 4 1)))
    by (vm_compute; reflexivity).
  split; [exact H|].
  exact (earlier_rows_are_stable project0 [a; b] [c] _ _ _ _ H).
Defined.

(** X10: the run fails exactly as its first failing task does: when the
    tasks before it resolve and its iteration raises or exits, the run
    raises or exits in the same way, after the advisory and the lines of
    that iteration, whatever tasks come after. *)
Theorem first_failure_decides config sv ev ps pe before task after rows mid out :
  project config !! "start_date" = Some sv -> parse_date sv = ret ps ->
  project config !! "end_date" = Some ev -> parse_date ev = ret pe ->
  tasks config = before ++ task :: after ->
  steps ps pe ps before rows mid ->
  (forall e, resolve_task ps pe mid task = (out, Raise e) ->
             calculate_schedule config = (warning_lines ps pe ++ out, Raise e))
  /\ (forall code, resolve_task ps pe mid task = (out, SysExit code) ->
                   calculate_schedule config
                   = (warning_lines ps pe ++ out, SysExit code)).
Proof.
  intros Hsv Hps Hev Hpe Htasks Hsteps.
  split; intros x Hr;
    rewrite (calculate_schedule_unfold config ps pe sv ev) by assumption;
    rewrite Htasks, (steps_prefix _ _ _ _ _ _ Hsteps); cbn [for_tasks];
    rewrite Hr; reflexivity.
Qed.

Lemma first_failure_decides_witness :
  let a := make_task (VStr "A") (VInt 2) None in
  let b := make_task (VStr "B") VNone None in
  let c := make_task (VStr "C") (VStr "abc") None in
  let config := {| project := make_project (VStr "2026-01-01") (VStr "2026-06-30");
                   tasks := [a; b; c] |} in
  resolve_task (date 2026 1 1) (date 2026 6 30) (date 2026 1 15) b
  = ([], Raise TypeError)
  /\ calculate_schedule config = ([], Raise TypeError).
Proof.
  intros a b c config.
  assert (Hb : resolve_task (date 2026 1 1) (date 2026 6 30) (date 2026 1 15) b
               = ([], Raise TypeError)) by reflexivity.
  split; [exact Hb|].
  refine (proj1 (first_failure_decides config (VStr "2026-01-01") (VStr "2026-06-30")
                   (date 2026 1 1) (date 2026 6 30) [a] b [c]
                   [make_row (VStr "A") (date 2026 1 1) (date 2026 1 15)]
                   (date 2026 1 15) [] eq_refl _ eq_refl _ eq_refl _)
            TypeError Hb).
  - vm_compute; reflexivity.
  - vm_compute; reflexivity.
  - econstructor; [vm_compute; reflexivity|constructor].
Defined.

(** X11: an unanchored span-to-end task is an overlay: a run over a task list
    with such a task returns exactly when the run over the list without it
    returns, with the same lines and the same rows for all other tasks; the
    row of the overlay is inserted at its position. *)
Theorem overlay_can_be_removed project0 before span after name out rows ps pe :
  span !! "name" = Some name ->
  span !! "duration_weeks" = Some (VStr "start2end") ->
  truthy (manual_start span) = false ->
  calculate_schedule {| project := project0; tasks := before ++ span :: after |}
  = (out, Return (rows, ps, pe))
  <-> exists rows1 rows2,
        rows = rows1 ++ make_row name ps pe :: rows2
        /\ length rows1 = length before
        /\ calculate_schedule {| project := project0; tasks := before ++ after |}
           = (out, Return (rows1 ++ rows2, ps, pe)).
Proof.
  intros Hn Hd Hm. split.
  - intros H.
    apply calculate_schedule_Return in H
      as (sv & ev & final & Hsv & Hps & Hev & Hpe & -> & Hsteps).
    simpl in *.
    apply steps_app_inv in Hsteps as (rows1 & rows' & mid & -> & H1 & H2).
    inversion H2 as [|? ? r next ? rows2 ? Hr Hrest]; subst.
    rewrite (resolve_task_overlay ps pe mid span name Hn Hd Hm) in Hr.
    injection Hr as <- <-.
    exists rows1, rows2. split; [reflexivity|].
    split; [eapply steps_length; eassumption|].
    eapply calculate_schedule_steps; try eassumption.
    simpl. eapply steps_app; eassumption.
  - intros (rows1 & rows2 & -> & Hlen & H).
    apply calculate_schedule_Return in H
      as (sv & ev & final & Hsv & Hps & Hev & Hpe & -> & Hsteps).
    simpl in *.
    apply steps_app_inv in Hsteps as (r1 & r2 & mid & Heq & H1 & H2).
    assert (Hr1 : r1 = rows1 /\ r2 = rows2).
    { apply app_inj_1; [|exact (eq_sym Heq)].
      rewrite (steps_length _ _ _ _ _ _ H1). lia. }
    destruct Hr1 as [-> ->].
    eapply calculate_schedule_steps; try eassumption. simpl.
    eapply steps_app; [exact H1|].
    econstructor; [|exact H2].
    apply resolve_task_overlay; assumption.
Qed.

Lemma overlay_can_be_removed_witness :
  let a := make_task (VStr "Lit Review") (VInt 3) None in
  let b := make_task (VStr "Pilot") (VStr "start2end") None in
  let c := make_task (VStr "Writeup") (VInt 2) None in
  let project0 := make_project (VStr "2026-02-01") (VStr "2026-04-01") in
  let ra := make_row (VStr "Lit Review") (date 2026 2 1) (date 2026 2 22) in
  let rc := make_row (VStr "Writeup") (date 2026 2 22) (date 2026 3 8) in
  (b !! "name" = Some (VStr "Pilot")
   /\ b !! "duration_weeks" = Some (VStr "start2end")
   /\ truthy (manual_start b) = false)
  /\ calculate_schedule {| project := project0; tasks := [a] ++ [c] |}
     = ([], Return ([ra] ++ [rc], date 2026 2 1, date 2026 4 1))
  /\ calculate_schedule {| project := project0; tasks := [a] ++ b :: [c] |}
     = ([], Return ([ra] ++ make_row (VStr "Pilot") (date 2026 2 1) (date 2026 4 1)
                       :: [rc], date 2026 2 1, date 2026 4 1)).
Proof.
  intros a b c project0 ra rc.
  assert (H1 : b !! "name" = Some (VStr "Pilot")) by reflexivity.
  assert (H2 : b !! "duration_weeks" = Some (VStr "start2end")) by reflexivity.
  assert (H3 : truthy (manual_start b) = false) by reflexivity.
  assert (H : calculate_schedule {| project := project0; tasks := [a] ++ [c] |}
              = ([], Return ([ra] ++ [rc], date 2026 2 1, date 2026 4 1)))
    by (vm_compute; reflexivity).
  split; [auto|]. split; [exact H|].
  apply (proj2 (overlay_can_be_removed project0 [a] b [c] (VStr "Pilot")
                  [] _ (date 2026 2 1) (date 2026 4 1) H1 H2 H3)).
  exists [ra], [rc]. auto.
Defined.

(** X12: a numeric task with a fixed start cuts the schedule in two: the rows
    from it onwards are the same whatever tasks come before it, as long as
    both runs return. *)
Theorem fixed_start_cuts_schedule project0 before1 before2 task after
    out1 rows1 out2 rows2 ps pe :
  truthy (manual_start task) = true ->
  eq_str (get task "duration_weeks") "start2end" = false ->
  calculate_schedule {| project := project0; tasks := before1 ++ task :: after |}
  = (out1, Return (rows1, ps, pe)) ->
  calculate_schedule {| project := project0; tasks := before2 ++ task :: after |}
  = (out2, Return (rows2, ps, pe)) ->
  drop (length before1) rows1 = drop (length before2) rows2.
Proof.
  intros Hm Hnum H1 H2.
  apply calculate_schedule_Return in H1 as (_ & _ & f1 & _ & _ & _ & _ & _ & S1).
  apply calculate_schedule_Return in H2 as (_ & _ & f2 & _ & _ & _ & _ & _ & S2).
  simpl in *.
  apply steps_app_inv in S1 as (a1 & b1 & mid1 & -> & A1 & B1).
  apply steps_app_inv in S2 as (a2 & b2 & mid2 & -> & A2 & B2).
  rewrite <- (steps_length _ _ _ _ _ _ A1), <- (steps_length _ _ _ _ _ _ A2).
  rewrite !drop_app_length.
  inversion B1 as [|? ? r1 n1 ? t1 ? R1 T1]; subst.
  inversion B2 as [|? ? r2 n2 ? t2 ? R2 T2]; subst.
  apply resolve_task_Return in R1 as [_ R1].
  assert (R2' : resolve_task ps pe mid2 task = ret (r1, n1)).
  { apply resolved_resolve_task.
    destruct R1 as (name & d & Hn & Hd & Hrow & H).
    exists name, d. unfold get in Hnum. rewrite Hd in Hnum.
    rewrite Hnum, Hm in *. auto 10. }
  rewrite R2' in R2. injection R2 as <- <-.
  destruct (steps_functional _ _ _ _ _ _ T1 _ _ T2) as [-> _]. reflexivity.
Qed.

Lemma fixed_start_cuts_schedule_witness :
  let a := make_task (VStr "A") (VInt 2) None in
  let b := make_task (VStr "B") (VInt 5) None in
  let c := make_task (VStr "C") (VInt 3) None in
  let project0 := make_project (VStr "2026-01-01") (VStr "2026-06-30") in
  let rf := make_row (VStr "Review") (date 2026 3 1) (date 2026 3 15) in
  let rc := make_row (VStr "C") (date 2026 3 15) (date 2026 4 5) in
  let rows1 := [make_row (VStr "A") (date 2026 1 1) (date 2026 1 15); rf; rc] in
  let rows2 := [make_row (VStr "B") (date 2026 1 1) (date 2026 2 5);
                make_row (VStr "A") (date 2026 2 5) (date 2026 2 19); rf; rc] in
  (truthy (manual_start fixed_task) = true
   /\ eq_str (get fixed_task "duration_weeks") "start2end" = false
   /\ calculate_schedule {| project := project0; tasks := [a] ++ fixed_task :: [c] |}
      = ([], Return (rows1, date 2026 1 1, date 2026 6 30))
   /\ calculate_schedule {| project := project0; tasks := [b; a] ++ fixed_task :: [c] |}
      = ([], Return (rows2, date 2026 1 1, date 2026 6 30)))
  /\ drop 1 rows1 = drop 2 rows2.
Proof.
  intros a b c project0 rf rc rows1 rows2.
  assert (H1 : truthy (manual_start fixed_task) = true) by reflexivity.
  assert (H2 : eq_str (get fixed_task "duration_weeks") "start2end" = false)
    by reflexivity.
  assert (H3 : calculate_schedule
                 {| project := project0; tasks := [a] ++ fixed_task :: [c] |}
               = ([], Return (rows1, date 2026 1 1, date 2026 6 30)))
    by (vm_compute; reflexivity).
  assert (H4 : calculate_schedule
                 {| project := project0; tasks := [b; a] ++ fixed_task :: [c] |}
               = ([], Return (rows2, date 2026 1 1, date 2026 6 30)))
    by (vm_compute; reflexivity).
  split; [auto|].
  exact (fixed_start_cuts_schedule project0 [a] [b; a] fixed_task [c]
           _ _ _ _ _ _ H1 H2 H3 H4).
Defined.
(** *** Durations that are not negative *)


Lemma binary_round_aux_nonnegative mx ex lx :
  0 <= mx -> nonnegative (binary_round_aux prec emax false mx ex lx) = true.
Proof.
  intros H. unfold binary_round_aux.
  pose proof (shr_fexp_nonneg mx ex lx H) as H1.
  destruct (shr_fexp prec emax mx ex lx) as [mrs' e']. simpl in H1.
  pose proof (shr_fexp_nonneg _ e' loc_Exact
                (round_nearest_even_nonneg _ (loc_of_shr_record mrs') H1)) as H2.
  destruct (shr_fexp prec emax _ e' loc_Exact) as [mrs'' e'']. simpl in H2.
  destruct (shr_m mrs''); [reflexivity| |lia].
  destruct (e'' <=? emax - prec); reflexivity.
Qed.

Lemma binary_normalize_nonnegative m e s :
  0 <= m -> nonnegative (binary_normalize prec emax m e s) = true.
Proof.
  intros H. unfold binary_normalize, binary_round.
  destruct m; [reflexivity| |lia].
  destruct (shl_align _ _ _). apply binary_round_aux_nonnegative. lia.
Qed.

Lemma modf_nonnegative w :
  nonnegative w = true ->
  nonnegative (modf w).1 = true /\ nonnegative (modf w).2 = true.
Proof.
  destruct w as [s|[]| |[] m e]; simpl; try discriminate; intros _; auto.
  destruct (Z.leb_spec 0 e) as [He|He]; simpl; [auto|].
  split; apply binary_normalize_nonnegative.
  - rewrite Z.shiftr_div_pow2, Z.shiftl_mul_pow2 by lia.
    pose proof (Z.mul_div_le (Zpos m) (2 ^ (- e))
                  ltac:(apply Z.pow_pos_nonneg; lia)) as Hle.
    simpl. lia.
  - apply Z.shiftr_nonneg. lia.
Qed.

Lemma long_from_double_nonnegative x n :
  nonnegative x = true -> long_from_double x = ret n -> 0 <= n.
Proof.
  destruct x as [s|[]| |[] m e]; simpl; try discriminate; intros _ [= <-];
    [lia|].
  apply Z.shiftl_nonneg. lia.
Qed.

Lemma SFmul_nonnegative x y :
  nonnegative x = true -> nonnegative y = true ->
  is_zero x = false -> is_zero y = false ->
  nonnegative (SFmul prec emax x y) = true.
Proof.
  destruct x as [sx|[]| |[] mx ex], y as [sy|[]| |[] my ey]; simpl;
    try discriminate; try reflexivity.
  intros _ _ _ _. apply binary_round_aux_nonnegative. lia.
Qed.

Lemma round_half_away_nonneg n k : 0 <= n -> 0 <= k -> 0 <= round_half_away n k.
Proof.
  intros Hn Hk. unfold round_half_away.
  assert (0 < 2 ^ k) by (apply Z.pow_pos_nonneg; lia).
  assert (0 <= Z.abs n / 2 ^ k) by (apply Z.div_pos; lia).
  destruct (2 ^ k <=? 2 * (Z.abs n mod 2 ^ k)); nia.
Qed.

Lemma round_leftover_nonnegative x l :
  nonnegative l = true -> 0 <= round_leftover x l.
Proof.
  intros Hl. unfold round_leftover.
  assert (Hf : 0 <= (fraction_of l).1 /\ 0 <= (fraction_of l).2).
  { destruct l as [s|[]| |[] m e]; simpl in *; try discriminate; try lia.
    destruct (Z.leb_spec 0 e); simpl; split; try lia.
    apply Z.shiftl_nonneg. lia. }
  destruct (fraction_of l) as [n k]. simpl in Hf. destruct Hf as [Hn Hk].
  destruct (is_halfway n k) eqn:Hh; [|apply round_half_away_nonneg; assumption].
  destruct (Z.odd x).
  - assert (H2 : 0 < 2 ^ k) by (apply Z.pow_pos_nonneg; lia).
    assert (Hpow : 2 ^ (k + 1) = 2 * 2 ^ k)
      by (rewrite Z.pow_add_r by lia; lia).
    unfold round_half_away. rewrite Hpow.
    set (a := n + 1 * 2 ^ k).
    assert (Ha : 2 ^ k <= a) by (unfold a; lia).
    rewrite (Z.abs_eq a) by lia.
    pose proof (Z.div_mod a (2 * 2 ^ k) ltac:(lia)) as Hdm.
    pose proof (Z.mod_pos_bound a (2 * 2 ^ k) ltac:(lia)) as Hb.
    assert (Hq : 0 <= a / (2 * 2 ^ k)) by (apply Z.div_pos; lia).
    assert (Hs : Z.sgn a = 1) by (apply Z.sgn_pos; lia).
    rewrite Hs.
    destruct (Z.leb_spec (2 * 2 ^ k) (2 * (a mod (2 * 2 ^ k)))) as [Hc|Hc]; [lia|].
    assert (1 <= a / (2 * 2 ^ k)); [|lia].
    destruct (Z.eq_dec (a / (2 * 2 ^ k)) 0) as [E|E]; [|lia].
    rewrite E in Hdm. lia.
  - pose proof (round_half_away_nonneg (n + 0 * 2 ^ k) (k + 1)
                  ltac:(lia) ltac:(lia)). lia.
Qed.

Lemma timedelta_weeks_nonnegative w delta :
  nonnegative w = true -> timedelta_weeks w = ret delta -> 0 <= delta.
Proof.
  intros Hw. unfold timedelta_weeks, accum.
  destruct (modf_nonnegative w Hw) as [Hf Hi].
  destruct (modf w) as [fracpart intpart]. simpl in Hf, Hi.
  destruct (long_from_double intpart) as [o [x1|e|c]] eqn:Hx1; try discriminate.
  pose proof (long_from_double_silent intpart) as Hs. rewrite Hx1 in Hs.
  simpl in Hs. subst o. change ([], Return x1) with (ret x1) in *.
  pose proof (long_from_double_nonnegative _ _ Hi Hx1) as H1.
  rewrite bind_ret_l.
  assert (HF : 0 <= x1 * us_per_week) by (unfold us_per_week; lia).
  destruct (is_zero fracpart) eqn:Hz.
  - rewrite bind_ret_l. cbn [is_zero].
    destruct (_ && _); [|discriminate]. intros [= <-]. lia.
  - assert (Hd : nonnegative (SFmul prec emax (float_of_Z us_per_week) fracpart) = true).
    { apply SFmul_nonnegative; try assumption; reflexivity. }
    destruct (modf_nonnegative _ Hd) as [Hf2 Hi2].
    destruct (modf (SFmul prec emax (float_of_Z us_per_week) fracpart))
      as [f2 i2]. simpl in Hf2, Hi2.
    destruct (long_from_double i2) as [o [x2|e|c]] eqn:Hx2; try discriminate.
    pose proof (long_from_double_silent i2) as Hs. rewrite Hx2 in Hs.
    simpl in Hs. subst o. change ([], Return x2) with (ret x2) in *.
    pose proof (long_from_double_nonnegative _ _ Hi2 Hx2) as H2.
    rewrite !bind_ret_l.
    pose proof (round_leftover_nonnegative (0 + x1 * us_per_week + x2) f2 Hf2) as Hr.
    destruct (is_zero f2); destruct (_ && _); try discriminate;
      intros [= <-]; lia.
Qed.

Lemma float_of_Z_nonnegative n : 0 <= n -> nonnegative (float_of_Z n) = true.
Proof. apply binary_normalize_nonnegative. Qed.

Lemma numeric_task_forward ps pe cur task out r next w :
  eq_str (get task "duration_weeks") "start2end" = false ->
  resolve_task ps pe cur task = (out, Return (r, next)) ->
  float (get task "duration_weeks") = ret w ->
  nonnegative w = true ->
  Start r <= End_ r /\ 0 <= DurationDays r /\ Start r <= next.
Proof.
  intros Hnum Hr Hf Hw.
  apply resolve_task_Return in Hr as (_ & name & d & _ & Hd & Hrow & H).
  unfold get in *. rewrite Hd in *. rewrite Hnum in H.
  destruct H as (_ & -> & w' & delta & Hf' & Ht & Ha).
  rewrite Hf in Hf'. injection Hf' as <-.
  apply datetime_add_Return in Ha as [Ha _].
  pose proof (timedelta_weeks_nonnegative w delta Hw Ht) as Hdelta.
  split; [lia|]. split; [|lia].
  rewrite Hrow. simpl. unfold days, datetime_sub.
  apply Z.div_pos; [lia|reflexivity].
Qed.


(** X13: a numeric task whose duration is not negative does not run
    backwards: its end is not before its start, its [DurationDays] is not
    negative, and the cursor it leaves is not before its start. *)
Theorem forward_duration ps pe cur task out r next w :
  eq_str (get task "duration_weeks") "start2end" = false ->
  resolve_task ps pe cur task = (out, Return (r, next)) ->
  float (get task "duration_weeks") = ret w ->
  nonnegative w = true ->
  Start r <= End_ r /\ 0 <= DurationDays r /\ Start r <= next.
Proof. apply numeric_task_forward. Qed.

Lemma forward_duration_witness :
  let task := make_task (VStr "T") (VFloat half_week) None in
  let r := make_row (VStr "T") (date 2026 1 1) (date 2026 1 4 + us_per_day / 2) in
  (eq_str (get task "duration_weeks") "start2end" = false
   /\ resolve_task (date 2026 1 1) (date 2026 6 30) (date 2026 1 1) task
      = ([], Return (r, End_ r))
   /\ float (get task "duration_weeks") = ret half_week
   /\ nonnegative half_week = true)
  /\ Start r <= End_ r /\ 0 <= DurationDays r /\ Start r <= End_ r.
Proof.
  intros task r.
  assert (H1 : eq_str (get task "duration_weeks") "start2end" = false)
    by reflexivity.
  assert (H2 : resolve_task (date 2026 1 1) (date 2026 6 30) (date 2026 1 1) task
               = ([], Return (r, End_ r))) by (vm_compute; reflexivity).
  assert (H3 : float (get task "duration_weeks") = ret half_week) by reflexivity.
  assert (H4 : nonnegative half_week = true) by reflexivity.
  split; [auto|].
  exact (forward_duration _ _ _ _ _ _ _ _ H1 H2 H3 H4).
Defined.


Lemma steps_after_start ps pe cur tasks rows final :
  steps ps pe cur tasks rows final ->
  ps <= cur ->
  Forall (fun task => truthy (manual_start task) = false /\ forward task) tasks ->
  Forall (fun r => ps <= Start r) rows /\ ps <= final.
Proof.
  induction 1 as [cur|cur task r next rest rows final Hr _ IH];
    intros Hcur Hall; [split; [constructor|assumption]|].
  inversion Hall as [|? ? [Hm Hfw] Hrest]; subst.
  pose proof Hr as Hr'.
  apply resolve_task_Return in Hr' as (_ & name & d & _ & Hd & _ & H).
  rewrite Hm in H.
  assert (Hrn : ps <= Start r /\ ps <= next).
  { destruct (eq_str d "start2end") eqn:Hs.
    - destruct H as (_ & -> & ->). lia.
    - destruct H as (Hstart & Hnext & _).
      destruct Hfw as [Hfw|(w & Hf & Hw)].
      + unfold get in Hfw. rewrite Hd, Hs in Hfw. discriminate.
      + assert (Hnum : eq_str (get task "duration_weeks") "start2end" = false)
          by (unfold get; rewrite Hd; exact Hs).
        destruct (numeric_task_forward ps pe cur task [] r next w Hnum Hr Hf Hw).
        lia. }
  destruct Hrn as [H1 H2]. destruct (IH H2 Hrest) as [IH1 IH2].
  split; [constructor; assumption|assumption].
Qed.

(** X14: when no task has a fixed start and no numeric duration is negative,
    no task starts before the project start. *)
Theorem rows_start_after_project_start config out rows ps pe :
  calculate_schedule config = (out, Return (rows, ps, pe)) ->
  Forall (fun task => truthy (manual_start task) = false /\ forward task)
         (tasks config) ->
  Forall (fun r => ps <= Start r) rows.
Proof.
  intros H Hall.
  apply calculate_schedule_Return in H
    as (sv & ev & final & _ & _ & _ & _ & _ & Hsteps).
  apply (steps_after_start _ _ _ _ _ _ Hsteps); [lia|exact Hall].
Qed.

Lemma rows_start_after_project_start_witness :
  let rows := [ make_row (VStr "Lit Review") (date 2026 2 1) (date 2026 2 22);
                make_row (VStr "Pilot") (date 2026 2 1) (date 2026 4 1);
                make_row (VStr "Writeup") (date 2026 2 22) (date 2026 3 8) ] in
  calculate_schedule example_config
  = ([], Return (rows, date 2026 2 1, date 2026 4 1))
  /\ Forall (fun r => date 2026 2 1 <= Start r) rows.
Proof.
  intros rows.
  assert (Hrun : calculate_schedule example_config
                 = ([], Return (rows, date 2026 2 1, date 2026 4 1)))
    by (vm_compute; reflexivity).
  split; [exact Hrun|].
  apply (rows_start_after_project_start _ _ _ _ _ Hrun).
  constructor; [split; [reflexivity|]|].
  { right. exists (float_of_Z 3). split; reflexivity. }
  constructor; [split; [reflexivity|]|].
  { left. reflexivity. }
  constructor; [split; [reflexivity|]|constructor].
  right. exists (float_of_Z 2). split; reflexivity.
Defined.
(** *** The calendar: ordinals and dates *)


Lemma div_mod_known d q r :
  0 <= r < d -> (d * q + r) / d = q /\ (d * q + r) mod d = r.
Proof.
  intros H. split.
  - symmetry. apply Z.div_unique with r; lia.
  - symmetry. apply Z.mod_unique with q; lia.
Qed.


(** [_ord2ymd] on the day [doy] (from 0) of the year after 400a + 100b +
    4c + e whole years. *)
Lemma _ord2ymd_core a b c e doy :
  0 <= b <= 3 -> 0 <= c <= 24 -> 0 <= e <= 3 -> 0 <= doy <= 365 ->
  (doy = 365 -> e = 3 /\ (c <> 24 \/ b = 3)) ->
  _ord2ymd (146097 * a + 36524 * b + 1461 * c + 365 * e + doy + 1)
  = if doy =? 365 then (400 * a + 100 * b + 4 * c + e + 1, 12, 31)
    else let '(m, d) :=
           month_day ((e =? 3) && (negb (c =? 24) || (b =? 3))) doy in
         (400 * a + 100 * b + 4 * c + e + 1, m, d).
Proof.
  intros Hb Hc He Hdoy Hlast.
  unfold _ord2ymd, month_day.
  change _DI400Y with 146097. change _DI100Y with 36524. change _DI4Y with 1461.
  cbv zeta.
  replace (146097 * a + 36524 * b + 1461 * c + 365 * e + doy + 1 - 1)
    with (146097 * a + (36524 * b + 1461 * c + 365 * e + doy)) by lia.
  destruct (div_mod_known 146097 a (36524 * b + 1461 * c + 365 * e + doy)
              ltac:(lia)) as [-> ->].
  destruct (Z.eqb_spec doy 365) as [Hl|Hl].
  - destruct (Hlast Hl) as [-> Hcb]. subst doy.
    destruct (Z.eq_dec c 24) as [->|Hc24].
    + assert (b = 3) by lia. subst b.
      change (36524 * 3 + 1461 * 24 + 365 * 3 + 365) with (36524 * 4 + 0).
      destruct (div_mod_known 36524 4 0 ltac:(lia)) as [-> ->].
      simpl. f_equal. f_equal. Z.to_euclidean_division_equations. lia.
    + replace (36524 * b + 1461 * c + 365 * 3 + 365)
        with (36524 * b + (1461 * c + 1460)) by lia.
      destruct (div_mod_known 36524 b (1461 * c + 1460) ltac:(lia)) as [-> ->].
      destruct (div_mod_known 1461 c 1460 ltac:(lia)) as [-> ->].
      change (1460 / 365) with 4. simpl. f_equal. f_equal. lia.
  - replace (36524 * b + 1461 * c + 365 * e + doy)
      with (36524 * b + (1461 * c + (365 * e + doy))) by lia.
    destruct (div_mod_known 36524 b (1461 * c + (365 * e + doy)) ltac:(lia))
      as [-> ->].
    destruct (div_mod_known 1461 c (365 * e + doy) ltac:(lia)) as [-> ->].
    destruct (div_mod_known 365 e doy ltac:(lia)) as [-> ->].
    replace ((e =? 4) || (b =? 4))%bool with false.
    2:{ symmetry. apply orb_false_iff. rewrite !Z.eqb_neq. lia. }
    replace (a * 400 + 1 + (b * 100 + c * 4 + e))
      with (400 * a + 100 * b + 4 * c + e + 1) by lia.
    destruct (doy <? _); reflexivity.
Qed.

(** The whole years before year [y], split into 400, 100, 4 and 1 year
    cycles. *)
Lemma year_parts y :
  exists a b c e,
    0 <= b <= 3 /\ 0 <= c <= 24 /\ 0 <= e <= 3
    /\ y = 400 * a + 100 * b + 4 * c + e + 1
    /\ _days_before_year y = 146097 * a + 36524 * b + 1461 * c + 365 * e
    /\ _is_leap y = ((e =? 3) && (negb (c =? 24) || (b =? 3)))%bool.
Proof.
  exists ((y - 1) / 400), ((y - 1) mod 400 / 100),
         ((y - 1) mod 400 mod 100 / 4), ((y - 1) mod 400 mod 100 mod 4).
  set (a := (y - 1) / 400). set (r := (y - 1) mod 400).
  set (b := r / 100). set (r' := r mod 100).
  set (c := r' / 4). set (e := r' mod 4).
  assert (H1 : y - 1 = 400 * a + r /\ 0 <= r < 400).
  { subst a r. pose proof (Z.div_mod (y - 1) 400 ltac:(lia)).
    pose proof (Z.mod_pos_bound (y - 1) 400 ltac:(lia)). lia. }
  assert (H2 : r = 100 * b + r' /\ 0 <= r' < 100).
  { subst b r'. pose proof (Z.div_mod r 100 ltac:(lia)).
    pose proof (Z.mod_pos_bound r 100 ltac:(lia)). lia. }
  assert (H3 : r' = 4 * c + e /\ 0 <= e < 4).
  { subst c e. pose proof (Z.div_mod r' 4 ltac:(lia)).
    pose proof (Z.mod_pos_bound r' 4 ltac:(lia)). lia. }
  clearbody a r b r' c e.
  assert (Hy : y = 400 * a + 100 * b + 4 * c + e + 1) by lia.
  assert (Hb : 0 <= b <= 3) by lia.
  assert (Hc : 0 <= c <= 24) by lia.
  assert (He : 0 <= e <= 3) by lia.
  clear H1 H2 H3 r r'.
  split; [exact Hb|]. split; [exact Hc|]. split; [exact He|].
  split; [exact Hy|]. split.
  - unfold _days_before_year.
    replace (y - 1) with (400 * a + 100 * b + 4 * c + e) by lia.
    replace ((400 * a + 100 * b + 4 * c + e) / 4) with (100 * a + 25 * b + c)
      by (apply Z.div_unique with e; lia).
    replace ((400 * a + 100 * b + 4 * c + e) / 100) with (4 * a + b)
      by (apply Z.div_unique with (4 * c + e); lia).
    replace ((400 * a + 100 * b + 4 * c + e) / 400) with a
      by (apply Z.div_unique with (100 * b + 4 * c + e); lia).
    lia.
  - unfold _is_leap.
    assert (M4 : y mod 4 = (e + 1) mod 4).
    { rewrite Hy.
      replace (400 * a + 100 * b + 4 * c + e + 1)
        with (e + 1 + (100 * a + 25 * b + c) * 4) by lia.
      apply Z.mod_add. lia. }
    assert (M100 : y mod 100 = (4 * c + e + 1) mod 100).
    { rewrite Hy.
      replace (400 * a + 100 * b + 4 * c + e + 1)
        with (4 * c + e + 1 + (4 * a + b) * 100) by lia.
      apply Z.mod_add. lia. }
    assert (M400 : y mod 400 = (100 * b + 4 * c + e + 1) mod 400).
    { rewrite Hy.
      replace (400 * a + 100 * b + 4 * c + e + 1)
        with (100 * b + 4 * c + e + 1 + a * 400) by lia.
      apply Z.mod_add. lia. }
    rewrite M4, M100, M400.
    destruct (Z.eqb_spec e 3) as [->|He3].
    + change ((3 + 1) mod 4) with 0. simpl andb.
      destruct (Z.eqb_spec c 24) as [->|Hc24].
      * change ((4 * 24 + 3 + 1) mod 100) with 0. simpl.
        destruct (Z.eqb_spec b 3) as [->|Hb3]; [reflexivity|].
        apply Z.eqb_neq. Z.to_euclidean_division_equations. lia.
      * simpl. replace ((4 * c + 3 + 1) mod 100 =? 0) with false; [reflexivity|].
        symmetry. apply Z.eqb_neq. Z.to_euclidean_division_equations. lia.
    + simpl. replace ((e + 1) mod 4 =? 0) with false; [reflexivity|].
      symmetry. apply Z.eqb_neq. Z.to_euclidean_division_equations. lia.
Qed.

Lemma _ord2ymd_year y doy :
  0 <= doy <= 364 + (if _is_leap y then 1 else 0) ->
  _ord2ymd (_days_before_year y + doy + 1)
  = if doy =? 365 then (y, 12, 31)
    else let '(m, d) := month_day (_is_leap y) doy in (y, m, d).
Proof.
  intros Hdoy.
  destruct (year_parts y) as (a & b & c & e & Hb & Hc & He & Hy & Hdby & Hleap).
  assert (Hd : 0 <= doy <= 365) by (destruct (_is_leap y); lia).
  assert (Hl : doy = 365 -> e = 3 /\ (c <> 24 \/ b = 3)).
  { intros ->. rewrite Hleap in Hdoy.
    destruct (Z.eqb_spec e 3) as [E|E]; [|simpl in Hdoy; lia].
    split; [exact E|].
    destruct (Z.eqb_spec c 24); destruct (Z.eqb_spec b 3); simpl in Hdoy; lia. }
  pose proof (_ord2ymd_core a b c e doy Hb Hc He Hd Hl) as H.
  rewrite <- Hleap, <- Hy in H. rewrite Hdby.
  replace (146097 * a + 36524 * b + 1461 * c + 365 * e + doy + 1)
    with (146097 * a + 36524 * b + 1461 * c + 365 * e + doy + 1) in H by lia.
  exact H.
Qed.


(** A boolean check that holds on each number of a range holds on the
    range. *)
Lemma range_check (f : Z -> bool) (lo : Z) (n : nat) :
  forallb f (List.map (fun k => lo + Z.of_nat k) (seq 0 n)) = true ->
  forall x, lo <= x < lo + Z.of_nat n -> f x = true.
Proof.
  intros Hall x Hx. rewrite forallb_forall in Hall. apply Hall.
  apply in_map_iff. exists (Z.to_nat (x - lo)). split; [lia|].
  apply in_seq. lia.
Qed.

Lemma _DAYS_IN_MONTH_bounds m : 1 <= m <= 12 -> 28 <= _DAYS_IN_MONTH m <= 31.
Proof.
  intros Hm.
  assert (Hc : m = 1 \/ m = 2 \/ m = 3 \/ m = 4 \/ m = 5 \/ m = 6
               \/ m = 7 \/ m = 8 \/ m = 9 \/ m = 10 \/ m = 11 \/ m = 12) by lia.
  repeat (destruct Hc as [->|Hc]; [simpl; lia|]). subst. simpl. lia.
Qed.

Lemma month_day_agrees_all leapyear m d :
  1 <= m <= 12 -> 1 <= d <= 31 -> month_day_agrees leapyear m d = true.
Proof.
  intros Hm Hd.
  assert (Hl : forallb (fun l => forallb (fun m => forallb (month_day_agrees l m)
             (List.map (fun k => 1 + Z.of_nat k) (seq 0 31)))
             (List.map (fun k => 1 + Z.of_nat k) (seq 0 12)))
             [true; false] = true) by (vm_compute; reflexivity).
  rewrite forallb_forall in Hl.
  assert (Hin : In leapyear [true; false]) by (destruct leapyear; simpl; auto).
  specialize (Hl leapyear Hin).
  pose proof (range_check _ 1 12 Hl m ltac:(lia)) as Hmd. simpl in Hmd.
  exact (range_check _ 1 31 Hmd d ltac:(lia)).
Qed.

Lemma month_day_of_date leapyear m d :
  1 <= m <= 12 ->
  1 <= d <= _DAYS_IN_MONTH m + (if (m =? 2) && leapyear then 1 else 0) ->
  month_day leapyear
    (_DAYS_BEFORE_MONTH m + (if (2 <? m) && leapyear then 1 else 0) + d - 1)
  = (m, d).
Proof.
  intros Hm Hd.
  assert (Hd' : 1 <= d <= 31).
  { pose proof (_DAYS_IN_MONTH_bounds m Hm).
    destruct ((m =? 2) && leapyear) eqn:E; [|lia].
    apply andb_true_iff in E as [E _]. apply Z.eqb_eq in E. subst m.
    simpl in Hd. lia. }
  pose proof (month_day_agrees_all leapyear m d Hm Hd') as Hall.
  unfold month_day_agrees in Hall.
  apply orb_true_iff in Hall as [Hall|Hall]; [lia|].
  destruct (month_day _ _) as [m' d'].
  apply andb_true_iff in Hall as [Hm' Hd'']. f_equal; lia.
Qed.

Lemma date_of_month_day (leapyear : bool) n :
  0 <= n <= 364 + (if leapyear then 1 else 0) ->
  let '(m, d) := month_day leapyear n in
  1 <= m <= 12
  /\ 1 <= d <= _DAYS_IN_MONTH m + (if (m =? 2) && leapyear then 1 else 0)
  /\ _DAYS_BEFORE_MONTH m + (if (2 <? m) && leapyear then 1 else 0) + d - 1 = n.
Proof.
  intros Hn.
  assert (Ht : forallb (day_of_year_agrees true)
                 (List.map (fun k => 0 + Z.of_nat k) (seq 0 366)) = true)
    by (vm_compute; reflexivity).
  assert (Hf : forallb (day_of_year_agrees false)
                 (List.map (fun k => 0 + Z.of_nat k) (seq 0 365)) = true)
    by (vm_compute; reflexivity).
  assert (H : day_of_year_agrees leapyear n = true).
  { destruct leapyear.
    - apply (range_check _ 0 366 Ht). lia.
    - apply (range_check _ 0 365 Hf). lia. }
  unfold day_of_year_agrees in H. destruct (month_day leapyear n) as [m d].
  repeat (apply andb_true_iff in H as [H ?]). lia.
Qed.

(** The date of the ordinal of a date is that date. *)
Lemma _ord2ymd_ymd2ord y m d :
  1 <= m <= 12 -> 1 <= d <= _days_in_month y m ->
  _ord2ymd (_ymd2ord y m d) = (y, m, d).
Proof.
  intros Hm Hd.
  pose proof (_days_before_month_bounds y m d Hm Hd) as Hb.
  unfold _ymd2ord.
  replace (_days_before_year y + _days_before_month y m + d)
    with (_days_before_year y + (_days_before_month y m + d - 1) + 1) by lia.
  rewrite _ord2ymd_year by lia.
  unfold _days_before_month, _days_in_month in *.
  assert (Hd' : 1 <= d <= _DAYS_IN_MONTH m
                           + (if (m =? 2) && _is_leap y then 1 else 0)).
  { destruct ((m =? 2) && _is_leap y) eqn:E; [|lia].
    apply andb_true_iff in E as [E _]. apply Z.eqb_eq in E. subst m.
    simpl. lia. }
  pose proof (month_day_of_date (_is_leap y) m d Hm Hd') as Hmd.
  destruct (Z.eqb_spec (_DAYS_BEFORE_MONTH m
       + (if (2 <? m) && _is_leap y then 1 else 0) + d - 1) 365) as [E|E].
  - pose proof (_DAYS_IN_MONTH_bounds m Hm).
    assert (Hc : m = 1 \/ m = 2 \/ m = 3 \/ m = 4 \/ m = 5 \/ m = 6
               \/ m = 7 \/ m = 8 \/ m = 9 \/ m = 10 \/ m = 11 \/ m = 12) by lia.
    destruct (_is_leap y);
      repeat (destruct Hc as [->|Hc]; [simpl in *; try lia; f_equal; lia|]);
      subst; simpl in *; try lia; f_equal; lia.
  - rewrite Hmd. reflexivity.
Qed.

(** Every ordinal is the ordinal of its date, and that date exists. *)
Lemma _ymd2ord_ord2ymd n :
  let '(y, m, d) := _ord2ymd n in
  1 <= m <= 12 /\ 1 <= d <= _days_in_month y m /\ _ymd2ord y m d = n.
Proof.
  set (N := n - 1).
  set (a := N / 146097). set (r1 := N mod 146097).
  assert (H1 : N = 146097 * a + r1 /\ 0 <= r1 < 146097).
  { subst a r1. pose proof (Z.div_mod N 146097 ltac:(lia)).
    pose proof (Z.mod_pos_bound N 146097 ltac:(lia)). lia. }
  clearbody a r1.
  set (b := r1 / 36524). set (r2 := r1 mod 36524).
  assert (H2 : r1 = 36524 * b + r2 /\ 0 <= r2 < 36524).
  { subst b r2. pose proof (Z.div_mod r1 36524 ltac:(lia)).
    pose proof (Z.mod_pos_bound r1 36524 ltac:(lia)). lia. }
  clearbody b r2.
  set (c := r2 / 1461). set (r3 := r2 mod 1461).
  assert (H3 : r2 = 1461 * c + r3 /\ 0 <= r3 < 1461).
  { subst c r3. pose proof (Z.div_mod r2 1461 ltac:(lia)).
    pose proof (Z.mod_pos_bound r2 1461 ltac:(lia)). lia. }
  clearbody c r3.
  set (e := r3 / 365). set (r4 := r3 mod 365).
  assert (H4 : r3 = 365 * e + r4 /\ 0 <= r4 < 365).
  { subst e r4. pose proof (Z.div_mod r3 365 ltac:(lia)).
    pose proof (Z.mod_pos_bound r3 365 ltac:(lia)). lia. }
  clearbody e r4.
  assert (Hparts : exists b' c' e' doy,
            0 <= b' <= 3 /\ 0 <= c' <= 24 /\ 0 <= e' <= 3 /\ 0 <= doy <= 365
            /\ (doy = 365 -> e' = 3 /\ (c' <> 24 \/ b' = 3))
            /\ n = 146097 * a + 36524 * b' + 1461 * c' + 365 * e' + doy + 1).
  { destruct (Z.eq_dec b 4) as [Hb|Hb].
    - exists 3, 24, 3, 365. lia.
    - destruct (Z.eq_dec e 4) as [He|He].
      + exists b, c, 3, 365. lia.
      + exists b, c, e, r4. lia. }
  destruct Hparts as (b' & c' & e' & doy & Hb & Hc & He & Hdoy & Hleap & Hn).
  clear H1 H2 H3 H4 N r1 r2 r3 r4 b c e.
  set (y := 400 * a + 100 * b' + 4 * c' + e' + 1).
  destruct (year_parts y) as (a2 & b2 & c2 & e2 & Hb2 & Hc2 & He2 & Hy & Hdby & Hl).
  assert (a2 = a /\ b2 = b' /\ c2 = c' /\ e2 = e') as (-> & -> & -> & ->)
    by (subst y; lia).
  assert (Hdoy' : 0 <= doy <= 364 + (if _is_leap y then 1 else 0)).
  { rewrite Hl. destruct (Z.eq_dec doy 365) as [E|E]; [|destruct (_ && _); lia].
    destruct (Hleap E) as [-> Hcb]. simpl.
    destruct (Z.eqb_spec c' 24); destruct (Z.eqb_spec b' 3); simpl; lia. }
  replace n with (_days_before_year y + doy + 1) by lia.
  rewrite _ord2ymd_year by exact Hdoy'.
  unfold _ymd2ord, _days_before_month, _days_in_month.
  destruct (Z.eqb_spec doy 365) as [E|E].
  - subst doy. destruct (_is_leap y); simpl in *; lia.
  - assert (Hdoy2 : 0 <= doy <= 364 + (if _is_leap y then 1 else 0))
      by (destruct (_is_leap y); lia).
    pose proof (date_of_month_day (_is_leap y) doy Hdoy2) as Hmd.
    destruct (month_day (_is_leap y) doy) as [m d].
    destruct Hmd as (Hm & Hd & Hsum).
    split; [exact Hm|]. split; [|lia].
    destruct ((m =? 2) && _is_leap y) eqn:E2; [|lia].
    apply andb_true_iff in E2 as [E2 _]. apply Z.eqb_eq in E2. subst m.
    simpl in Hd. lia.
Qed.
(** *** Dates written in ISO form *)

Lemma byte_digit_char x : byte (digit_char x) = 48 + x mod 10.
Proof.
  unfold digit_char, byte.
  pose proof (Z.mod_pos_bound x 10 ltac:(lia)) as Hx.
  assert (Hc : x mod 10 = 0 \/ x mod 10 = 1 \/ x mod 10 = 2 \/ x mod 10 = 3
               \/ x mod 10 = 4 \/ x mod 10 = 5 \/ x mod 10 = 6
               \/ x mod 10 = 7 \/ x mod 10 = 8 \/ x mod 10 = 9) by lia.
  repeat (destruct Hc as [->|Hc]; [reflexivity|]). rewrite Hc. reflexivity.
Qed.

(** The code points of ASCII text are its bytes. *)
Lemma decode_utf8_ascii s :
  Forall (fun b => byte b < 128) s -> decode_utf8 s = List.map byte s.
Proof.
  induction 1 as [|b s Hb _ IH]; [reflexivity|].
  cbn [decode_utf8 List.map].
  rewrite (proj2 (Z.ltb_lt _ _) Hb), IH. reflexivity.
Qed.

Lemma zero_padded_ascii width n acc :
  Forall (fun b => byte b < 128) acc ->
  Forall (fun b => byte b < 128) (zero_padded width n acc).
Proof.
  revert n acc. induction width as [|w IH]; intros n acc Hacc; [exact Hacc|].
  cbn [zero_padded]. apply IH. constructor; [|exact Hacc].
  rewrite byte_digit_char.
  pose proof (Z.mod_pos_bound n 10 ltac:(lia)). lia.
Qed.

Lemma map_byte_zero_padded width n acc :
  List.map byte (zero_padded width n acc)
  = List.map byte (zero_padded width n []) ++ List.map byte acc.
Proof.
  revert n acc. induction width as [|w IH]; intros n acc; [reflexivity|].
  cbn [zero_padded]. rewrite (IH (n / 10) (digit_char n :: acc)).
  rewrite (IH (n / 10) [digit_char n]). cbn [List.map].
  rewrite <- app_assoc. reflexivity.
Qed.

Lemma decimal_of_ascii_digit x :
  Py_UNICODE_TODECIMAL (48 + x mod 10) = Some (x mod 10).
Proof.
  pose proof (Z.mod_pos_bound x 10 ltac:(lia)) as Hx.
  assert (Hc : x mod 10 = 0 \/ x mod 10 = 1 \/ x mod 10 = 2 \/ x mod 10 = 3
               \/ x mod 10 = 4 \/ x mod 10 = 5 \/ x mod 10 = 6
               \/ x mod 10 = 7 \/ x mod 10 = 8 \/ x mod 10 = 9) by lia.
  repeat (destruct Hc as [->|Hc]; [reflexivity|]). rewrite Hc. reflexivity.
Qed.

Lemma one_is_decimal_ascii_digit x rest :
  one is_decimal (48 + x mod 10 :: rest) = Some (x mod 10, rest).
Proof. unfold one, is_decimal. rewrite decimal_of_ascii_digit. reflexivity. Qed.

Lemma re_Y_zero_padded y rest :
  0 <= y <= 9999 ->
  re_Y (List.map byte (zero_padded 4 y []) ++ rest) = Some (y, rest).
Proof.
  intros Hy. cbn [zero_padded List.map app]. rewrite !byte_digit_char.
  unfold re_Y, two.
  rewrite !one_is_decimal_ascii_digit. do 2 f_equal.
  Z.to_euclidean_division_equations. lia.
Qed.

Lemma first_alt_re_m {A} (k : Z -> list Z -> option A) m rest r :
  1 <= m <= 12 -> k m rest = Some r ->
  first_alt re_m k (List.map byte (zero_padded 2 m []) ++ rest) = Some r.
Proof.
  intros Hm Hk.
  assert (Hc : m = 1 \/ m = 2 \/ m = 3 \/ m = 4 \/ m = 5 \/ m = 6
               \/ m = 7 \/ m = 8 \/ m = 9 \/ m = 10 \/ m = 11 \/ m = 12) by lia.
  repeat (destruct Hc as [->|Hc]; [vm_compute; rewrite Hk; reflexivity|]).
  subst m. vm_compute. rewrite Hk. reflexivity.
Qed.

Lemma first_alt_re_d {A} (k : Z -> list Z -> option A) d rest r :
  1 <= d <= 31 -> k d rest = Some r ->
  first_alt re_d k (List.map byte (zero_padded 2 d []) ++ rest) = Some r.
Proof.
  intros Hd Hk.
  assert (Hc : In d (List.map (fun k => 1 + Z.of_nat k) (seq 0 31))).
  { apply in_map_iff. exists (Z.to_nat (d - 1)). split; [lia|].
    apply in_seq. lia. }
  vm_compute in Hc.
  repeat (destruct Hc as [<-|Hc]; [vm_compute; rewrite Hk; reflexivity|]).
  destruct Hc.
Qed.

(** [strptime] reads the ISO form of a date as that date. *)
Lemma strptime_isoformat y m d :
  0 <= y <= 9999 -> 1 <= m <= 12 -> 1 <= d <= 31 ->
  strptime (isoformat y m d) = datetime_ymd y m d.
Proof.
  intros Hy Hm Hd. unfold strptime, isoformat, code_points.
  rewrite list_ascii_of_string_of_list_ascii.
  rewrite decode_utf8_ascii.
  2:{ apply zero_padded_ascii. constructor; [vm_compute; reflexivity|].
      apply zero_padded_ascii. constructor; [vm_compute; reflexivity|].
      apply zero_padded_ascii. constructor. }
  rewrite (map_byte_zero_padded 4 y (_ :: _)). cbn [List.map].
  rewrite (map_byte_zero_padded 2 m (_ :: _)). cbn [List.map].
  rewrite <- (app_nil_r (List.map byte (zero_padded 2 d []))).
  unfold format_regex_match. rewrite (re_Y_zero_padded y _ Hy).
  replace (literal "-" (byte "-" :: _)) with
    (Some (List.map byte (zero_padded 2 m [])
           ++ byte "-" :: List.map byte (zero_padded 2 d []) ++ []))
    by reflexivity.
  rewrite (first_alt_re_m _ m _ (y, m, d, []) Hm); [reflexivity|].
  replace (literal "-" (byte "-" :: _)) with
    (Some (List.map byte (zero_padded 2 d []) ++ [])) by reflexivity.
  apply first_alt_re_d; [exact Hd|reflexivity].
Qed.

Lemma _days_in_month_bounds y m : 1 <= m <= 12 -> 28 <= _days_in_month y m <= 31.
Proof.
  intros Hm. unfold _days_in_month.
  pose proof (_DAYS_IN_MONTH_bounds m Hm).
  destruct ((m =? 2) && _is_leap y); lia.
Qed.

Lemma _ymd2ord_first y m d : _ymd2ord y m 1 = _ymd2ord y m d - d + 1.
Proof. unfold _ymd2ord. lia. Qed.

(** The year of a day of the calendar. *)
Lemma _ord2ymd_year_bounds n :
  1 <= n <= _MAXORDINAL -> 1 <= fst (fst (_ord2ymd n)) <= 9999.
Proof.
  intros Hn. pose proof (_ymd2ord_ord2ymd n) as H.
  destruct (_ord2ymd n) as [[y m] d]. destruct H as (Hm & Hd & Hord). simpl.
  pose proof (_days_in_month_bounds y m Hm) as Hdim.
  pose proof (_days_before_month_bounds y m d Hm Hd) as Hdbm.
  assert (Hleap : 0 <= (if _is_leap y then 1 else 0) <= 1)
    by (destruct (_is_leap y); lia).
  unfold _ymd2ord, _MAXORDINAL in *.
  assert (Hlow : y <= 0 -> _days_before_year y <= -366).
  { intros Hy. unfold _days_before_year. Z.to_euclidean_division_equations. lia. }
  assert (Hhigh : 10000 <= y -> 3652059 <= _days_before_year y).
  { intros Hy. unfold _days_before_year. Z.to_euclidean_division_equations. lia. }
  lia.
Qed.

Lemma timedelta_three_weeks :
  timedelta_weeks_int 3 = ret (21 * us_per_day).
Proof. reflexivity. Qed.

Lemma toordinal_add_days d n : toordinal (d + n * us_per_day) = toordinal d + n.
Proof. unfold toordinal. apply Z.div_add. discriminate. Qed.

Lemma plot_limits_Return ps pe lo hi :
  plot_limits ps pe = ret (lo, hi) ->
  lo <= ps < lo + 31 * us_per_day
  /\ time_of lo = 0
  /\ date_of lo = (fst (fst (date_of ps)), snd (fst (date_of ps)), 1)
  /\ hi = pe + 21 * us_per_day
  /\ toordinal pe <= _MAXORDINAL - 21.
Proof.
  unfold plot_limits, date_of.
  pose proof (_ymd2ord_ord2ymd (toordinal ps)) as Hps.
  destruct (_ord2ymd (toordinal ps)) as [[y m] d].
  destruct Hps as (Hm & Hd & Hord). simpl fst. simpl snd.
  destruct (datetime_ymd_cases y m 1) as [[lo' Hlo]|Hlo]; rewrite Hlo;
    [|discriminate].
  rewrite bind_ret_l, timedelta_three_weeks, bind_ret_l.
  unfold datetime_add.
  destruct (_ && _) eqn:Hadd; [|discriminate].
  rewrite bind_ret_l. intros [= <- <-].
  apply datetime_ymd_Return in Hlo as [-> _].
  pose proof (_days_in_month_bounds y m Hm) as Hdim.
  rewrite toordinal_midnight.
  rewrite _ord2ymd_ymd2ord by lia.
  rewrite toordinal_add_days in Hadd.
  rewrite (_ymd2ord_first y m d), Hord.
  unfold toordinal, time_of, us_per_day in *.
  split; [Z.to_euclidean_division_equations; lia|].
  split; [apply Z.mod_mul; discriminate|].
  split; [reflexivity|]. split; [reflexivity|]. lia.
Qed.

Lemma plot_limits_cases ps pe :
  in_calendar ps ->
  (toordinal pe <= _MAXORDINAL - 21 -> 0 < toordinal pe + 21 ->
   exists lo hi, plot_limits ps pe = ret (lo, hi))
  /\ (_MAXORDINAL - 21 < toordinal pe -> plot_limits ps pe = raise OverflowError).
Proof.
  intros Hps. unfold plot_limits, date_of.
  pose proof (_ord2ymd_year_bounds (toordinal ps) Hps) as Hy.
  pose proof (_ymd2ord_ord2ymd (toordinal ps)) as Hord.
  destruct (_ord2ymd (toordinal ps)) as [[y m] d]. simpl in Hy.
  destruct Hord as (Hm & Hd & _).
  pose proof (_days_in_month_bounds y m Hm) as Hdim.
  assert (Hlo : datetime_ymd y m 1 = ret (_ymd2ord y m 1 * us_per_day)).
  { unfold datetime_ymd, MINYEAR, MAXYEAR.
    replace (_ && _) with true; [reflexivity|].
    symmetry. repeat (apply andb_true_iff; split); lia. }
  rewrite Hlo, bind_ret_l, timedelta_three_weeks, bind_ret_l.
  unfold datetime_add. rewrite toordinal_add_days.
  split.
  - intros Hhi Hpos.
    replace (_ && _) with true; [rewrite bind_ret_l; eauto|].
    symmetry. apply andb_true_iff. split; lia.
  - intros Hhi.
    replace (_ && _) with false; [reflexivity|].
    symmetry. apply andb_false_iff. right. lia.
Qed.

(** X15: when [parse_date] is given a date object, as the YAML loader makes of
    an unquoted date, or the ISO text of one, it returns the midnight of
    that very day: reading its year, month and day gives the date back. *)
Theorem parse_date_of_date y m d dt :
  datetime_ymd y m d = ret dt ->
  parse_date (VDate y m d) = ret dt
  /\ parse_date (VStr (isoformat y m d)) = ret dt
  /\ date_of dt = (y, m, d) /\ time_of dt = 0.
Proof.
  intros H.
  assert (Hr : 0 <= y <= 9999 /\ 1 <= m <= 12 /\ 1 <= d <= _days_in_month y m).
  { unfold datetime_ymd, MINYEAR, MAXYEAR in H.
    destruct (_ && _) eqn:E; [|discriminate].
    repeat (apply andb_true_iff in E as [E ?]). lia. }
  destruct Hr as (Hy & Hm & Hd).
  pose proof (_days_in_month_bounds y m Hm) as Hdim.
  assert (Hs : strptime (isoformat y m d) = ret dt)
    by (rewrite strptime_isoformat by lia; exact H).
  split; [exact Hs|]. split; [exact Hs|].
  apply datetime_ymd_Return in H as [-> _].
  unfold date_of, time_of. rewrite toordinal_midnight.
  split; [apply _ord2ymd_ymd2ord; assumption|].
  apply Z.mod_mul. discriminate.
Qed.

Lemma parse_date_of_date_witness :
  parse_date (VDate 2024 2 29) = ret (date 2024 2 29)
  /\ date_of (date 2024 2 29) = (2024, 2, 29).
Proof.
  assert (H : datetime_ymd 2024 2 29 = ret (date 2024 2 29))
    by (vm_compute; reflexivity).
  destruct (parse_date_of_date 2024 2 29 (date 2024 2 29) H) as (H1 & _ & H2 & _).
  split; [exact H1|exact H2].
Defined.

(** X16: the x axis that [create_gantt_chart] sets up starts at midnight of
    the first day of the month of the project start, at most 31 days before
    it, and ends exactly 21 days after the project end; so both project
    markers lie on the axis whenever the project does not end before it
    starts. *)
Theorem chart_window_holds_project ps pe lo hi :
  plot_limits ps pe = ret (lo, hi) ->
  date_of lo = (fst (fst (date_of ps)), snd (fst (date_of ps)), 1)
  /\ time_of lo = 0
  /\ lo <= ps < lo + 31 * us_per_day
  /\ hi = pe + 21 * us_per_day
  /\ (ps <= pe -> lo <= ps <= hi /\ lo <= pe <= hi).
Proof.
  intros H. apply plot_limits_Return in H as (H1 & H2 & H3 & H4 & _).
  repeat split; try assumption; unfold us_per_day in *; lia.
Qed.

Lemma chart_window_holds_project_witness :
  date_of (date 2026 2 1) = (2026, 2, 1)
  /\ date 2026 2 1 <= date 2026 2 17 < date 2026 2 1 + 31 * us_per_day.
Proof.
  assert (H : plot_limits (date 2026 2 17) (date 2026 4 1)
              = ret (date 2026 2 1, date 2026 4 22)) by (vm_compute; reflexivity).
  destruct (chart_window_holds_project _ _ _ _ H) as (H1 & _ & H2 & _).
  split; [exact H1|exact H2].
Defined.

(** X17: for the dates of a returned schedule the x axis can be set up unless
    the project ends after 9999-12-10: then the right limit would pass the
    last day of the calendar and [OverflowError] is raised.  Nothing else
    can go wrong there. *)
Theorem chart_window_overflow config out rows ps pe :
  calculate_schedule config = (out, Return (rows, ps, pe)) ->
  (toordinal pe <= _MAXORDINAL - 21 ->
   exists lo hi, plot_limits ps pe = ret (lo, hi))
  /\ (_MAXORDINAL - 21 < toordinal pe ->
      plot_limits ps pe = raise OverflowError).
Proof.
  intros H.
  apply calculate_schedule_Return in H
    as (sv & ev & final & _ & Hps & _ & Hpe & _ & _).
  apply parse_date_in_calendar in Hps, Hpe.
  destruct (plot_limits_cases ps pe Hps) as [Hok Hover].
  split; [|exact Hover].
  intros Hhi. apply Hok; [exact Hhi|]. unfold in_calendar in Hpe. lia.
Qed.

Lemma chart_window_overflow_witness :
  plot_limits (date 2026 1 1) (date 9999 12 11) = raise OverflowError.
Proof.
  assert (H : calculate_schedule
                {| project := make_project (VStr "2026-01-01") (VStr "9999-12-11"); tasks := [] |}
              = ([WarnDuration 2912422; WarnCrowded],
                 Return ([], date 2026 1 1, date 9999 12 11)))
    by (vm_compute; reflexivity).
  apply (proj2 (chart_window_overflow _ _ _ _ _ H)).
  vm_compute. reflexivity.
Defined.

(** X18: deciding on the marker of today's date raises [KeyError] exactly
    when the project has no [today_date] key, and [ValueError] exactly when
    the value is anything but the empty string and is not a date in the
    form YYYY-MM-DD (a null, a number, a misspelt date); it raises nothing
    else, prints nothing and never exits. *)
Theorem today_marker_errors project lo hi :
  (today_marker project lo hi = raise KeyError
   <-> project !! "today_date" = None)
  /\ (today_marker project lo hi = raise ValueError
      <-> exists v, project !! "today_date" = Some v /\ v <> VStr ""
                    /\ parse_date v = raise ValueError)
  /\ (today_marker project lo hi = raise KeyError
      \/ today_marker project lo hi = raise ValueError
      \/ exists r, today_marker project lo hi = ret r).
Proof.
  unfold today_marker, getitem.
  destruct (project !! "today_date") as [v|] eqn:Hv.
  2:{ split; [split; reflexivity|]. split; [|left; reflexivity].
      split; [discriminate|]. intros (v & [=] & _). }
  rewrite bind_ret_l.
  assert (Hne : negb (eq_str v "") = true <-> v <> VStr "").
  { destruct v; simpl; try (split; [discriminate|reflexivity]).
    rewrite negb_true_iff. split.
    - intros E [= ->]. discriminate.
    - intros E. apply String.eqb_neq. congruence. }
  destruct (negb (eq_str v "")) eqn:E.
  - assert (Hv' : v <> VStr "") by (apply Hne; reflexivity).
    destruct (parse_date_cases v) as [[t Ht]|Ht]; rewrite Ht.
    + rewrite bind_ret_l.
      destruct ((lo <=? t) && (t <=? hi));
        (split; [split; discriminate|]); (split; [|eauto]);
        (split; [discriminate|]); intros (v' & [= <-] & _ & H); rewrite Ht in H; discriminate.
    + split; [split; discriminate|]. split; [|right; left; reflexivity].
      split; [eauto|reflexivity].
  - split; [split; discriminate|]. split; [|eauto].
    split; [discriminate|]. intros (v' & [= <-] & Hv' & _).
    apply Hne in Hv'. discriminate.
Qed.

(** *** Text that is not ASCII *)

Lemma byte_ascii_of_code n : 0 <= n < 256 -> byte (ascii_of_code n) = n.
Proof.
  intros Hn. unfold byte, ascii_of_code.
  rewrite N_ascii_embedding by lia. lia.
Qed.

Lemma byte_bounds c : 0 <= byte c < 256.
Proof.
  unfold byte. pose proof (N_ascii_bounded c). lia.
Qed.

(** A code point that is not a surrogate. *)
Lemma decode_utf8_encode_utf8 ch rest :
  0 <= ch < 55296 \/ 57344 <= ch < 1114112 ->
  decode_utf8 (encode_utf8 ch ++ rest) = ch :: decode_utf8 rest.
Proof.
  intros Hch. unfold encode_utf8.
  destruct (Z.ltb_spec ch 128) as [H1|H1].
  { cbn [app decode_utf8]. rewrite byte_ascii_of_code by lia.
    rewrite (proj2 (Z.ltb_lt _ _) H1). reflexivity. }
  destruct (Z.ltb_spec ch 2048) as [H2|H2].
  { assert (Hq : 2 <= ch / 64 < 32) by (Z.to_euclidean_division_equations; lia).
    assert (Hr : 0 <= ch mod 64 < 64) by (apply Z.mod_pos_bound; lia).
    cbn [app decode_utf8]. unfold two_bytes, continuation.
    rewrite !byte_ascii_of_code by lia.
    replace (192 + ch / 64 <? 128) with false by (symmetry; apply Z.ltb_ge; lia).
    replace ((194 <=? 192 + ch / 64) && (192 + ch / 64 <=? 223)
             && ((128 <=? 128 + ch mod 64) && (128 + ch mod 64 <=? 191)))
      with true by (symmetry; repeat (apply andb_true_iff; split); lia).
    f_equal. Z.to_euclidean_division_equations; lia. }
  destruct (Z.ltb_spec ch 65536) as [H3|H3].
  { assert (Hq : 0 <= ch / 4096 < 16) by (Z.to_euclidean_division_equations; lia).
    assert (Hm : 0 <= ch / 64 mod 64 < 64) by (apply Z.mod_pos_bound; lia).
    assert (Hr : 0 <= ch mod 64 < 64) by (apply Z.mod_pos_bound; lia).
    assert (Hlow : ch / 4096 = 0 -> 32 <= ch / 64 mod 64)
      by (Z.to_euclidean_division_equations; lia).
    assert (Hsur : ch / 4096 = 13 -> ch / 64 mod 64 <= 31)
      by (Z.to_euclidean_division_equations; lia).
    cbn [app decode_utf8]. unfold two_bytes, three_bytes, continuation.
    rewrite !byte_ascii_of_code by lia.
    replace (224 + ch / 4096 <? 128) with false by (symmetry; apply Z.ltb_ge; lia).
    replace (224 + ch / 4096 <=? 223) with false by (symmetry; apply Z.leb_gt; lia).
    rewrite andb_false_r. cbn [andb].
    replace ((224 <=? 224 + ch / 4096) && (224 + ch / 4096 <=? 239)
             && ((128 <=? 128 + ch / 64 mod 64) && (128 + ch / 64 mod 64 <=? 191))
             && ((128 <=? 128 + ch mod 64) && (128 + ch mod 64 <=? 191))
             && (negb (224 + ch / 4096 =? 224) || (160 <=? 128 + ch / 64 mod 64))
             && (negb (224 + ch / 4096 =? 237) || (128 + ch / 64 mod 64 <=? 159)))
      with true.
    2:{ symmetry. repeat (apply andb_true_iff; split); lia. }
    f_equal. Z.to_euclidean_division_equations; lia. }
  assert (Hq : 0 <= ch / 262144 < 5) by (Z.to_euclidean_division_equations; lia).
  assert (Hp : 0 <= ch / 4096 mod 64 < 64) by (apply Z.mod_pos_bound; lia).
  assert (Hm : 0 <= ch / 64 mod 64 < 64) by (apply Z.mod_pos_bound; lia).
  assert (Hr : 0 <= ch mod 64 < 64) by (apply Z.mod_pos_bound; lia).
  assert (Hlow : ch / 262144 = 0 -> 16 <= ch / 4096 mod 64)
    by (Z.to_euclidean_division_equations; lia).
  assert (Hhigh : ch / 262144 = 4 -> ch / 4096 mod 64 <= 15)
    by (Z.to_euclidean_division_equations; lia).
  cbn [app decode_utf8]. unfold two_bytes, three_bytes, four_bytes, continuation.
  rewrite !byte_ascii_of_code by lia.
  replace (240 + ch / 262144 <? 128) with false by (symmetry; apply Z.ltb_ge; lia).
  replace (240 + ch / 262144 <=? 223) with false by (symmetry; apply Z.leb_gt; lia).
  replace (240 + ch / 262144 <=? 239) with false by (symmetry; apply Z.leb_gt; lia).
  rewrite !andb_false_r. cbn [andb].
  replace ((240 <=? 240 + ch / 262144) && (240 + ch / 262144 <=? 244)
           && ((128 <=? 128 + ch / 4096 mod 64) && (128 + ch / 4096 mod 64 <=? 191))
           && ((128 <=? 128 + ch / 64 mod 64) && (128 + ch / 64 mod 64 <=? 191))
           && ((128 <=? 128 + ch mod 64) && (128 + ch mod 64 <=? 191))
           && (negb (240 + ch / 262144 =? 240) || (144 <=? 128 + ch / 4096 mod 64))
           && (negb (240 + ch / 262144 =? 244) || (128 + ch / 4096 mod 64 <=? 143)))
    with true.
  2:{ symmetry. repeat (apply andb_true_iff; split); lia. }
  f_equal. Z.to_euclidean_division_equations; lia.
Qed.

(** The code points of the [str] of a sequence of code points are that
    sequence. *)
Lemma code_points_str_of_code_points l :
  Forall (fun ch => 0 <= ch < 55296 \/ 57344 <= ch < 1114112) l ->
  code_points (str_of_code_points l) = l.
Proof.
  unfold code_points, str_of_code_points.
  rewrite list_ascii_of_string_of_list_ascii.
  induction 1 as [|ch l Hch _ IH]; [reflexivity|].
  cbn [flat_map]. rewrite decode_utf8_encode_utf8 by exact Hch.
  rewrite IH. reflexivity.
Qed.

(** [float] and [strptime] read the decimal digits of every script and
    take the spaces of Unicode for spaces: fullwidth "2", a no-break space
    before "2", Arabic-Indic "12.5"; superscript two is no decimal digit.
    Fullwidth "2026" is a year, and a day may end in a fullwidth digit, but
    the month, matched by ranges, must be ASCII. *)
Lemma float_reads_unicode_digits :
  float (VStr (str_of_code_points [65298])) = ret (float_of_Z 2)
  /\ float (VStr (str_of_code_points [160; 50])) = ret (float_of_Z 2)
  /\ float (VStr (str_of_code_points [1633; 1634; 46; 1637]))
     = float (VStr "12.5")
  /\ float (VStr (str_of_code_points [178])) = raise ValueError.
Proof. repeat split; vm_compute; reflexivity. Qed.

Lemma strptime_reads_unicode_digits :
  strptime (str_of_code_points [65298; 65296; 65298; 65302; 45; 48; 50; 45; 48; 49])
  = ret (date 2026 2 1)
  /\ strptime (str_of_code_points [50; 48; 50; 54; 45; 48; 50; 45; 49; 65301])
     = ret (date 2026 2 15)
  /\ strptime (str_of_code_points [50; 48; 50; 54; 45; 65296; 50; 45; 48; 49])
     = raise ValueError.
Proof. repeat split; vm_compute; reflexivity. Qed.
